(** * Audio downloader base class (downloaders/downloader.py)

    A shallow embedding of the base class of the pronunciation
    downloaders, [AudioDownloader], and of the module-level helper
    [uniqify_list], together with the properties of the icon cache, the
    raw fetch helper, the file-name allocator and the deduplication
    helper.

    Python values are modelled as follows.  A [str] is a [string] holding
    the UTF-8 bytes of the text (every delimiter the code looks at is
    ASCII, so splitting and joining agree with the code-point view);
    [bytes] is a [list byte]; a [dict] is a [gmap]; [None]-or-object
    fields are [option]s.  The network, the HTML parser, the Qt image
    decoder and the temporary-file name generator are parameters of the
    development. *)

From Stdlib Require Import ZArith Ascii String.
From Stdlib.Strings Require Import Byte.
From stdpp Require Import base decidable option list strings pretty gmap sets.

Local Open Scope string_scope.
Local Open Scope list_scope.

(** ** The deduplication helper *)

Section uniqify.
Context {A : Type} `{EqDecision A}.

(** [list.count]: the number of elements of [l] equal to [i]. *)
Fixpoint count (l : list A) (i : A) : nat :=
  match l with
  | [] => 0
  | x :: l' => (if decide (x = i) then 1 else 0) + count l' i
  end.

(** One round of the comprehension
    [[no_dupes.append(i) for i in seq if not no_dupes.count(i)]]:
    the filter is evaluated against the list built so far. *)
Definition uniqify_step (no_dupes : list A) (i : A) : list A :=
  if Nat.eqb (count no_dupes i) 0 then no_dupes ++ [i] else no_dupes.

Definition uniqify_list (seq : list A) : list A :=
  foldl uniqify_step [] seq.

(** The specification's reading: position [i] of the input is kept
    exactly when its element does not occur at an earlier position. *)
Definition is_first_occurrence (l : list A) (i : nat) : option A :=
  match l !! i with
  | Some x => if decide (x ∈ take i l) then None else Some x
  | None => None
  end.

Definition first_occurrences (l : list A) : list A :=
  omap (is_first_occurrence l) (seq 0 (length l)).
End uniqify.


(** ** Python values and exceptions *)

Abbreviation bytes := (list byte).

#[global] Instance byte_eq_decision : EqDecision byte := Byte.byte_eq_dec.

(** The exception classes that occur in the module and in the library
    calls it makes.  [HTTPError] is a subclass of [URLError]. *)
Inductive exn :=
| NotImplementedError (msg : string)
| ValueError (msg : string)
| TypeError (msg : string)
| KeyError (key : string)
| URLError (reason : string)
| HTTPError (code : Z) (msg : string)
| FileExistsError (msg : string)
| OtherError (name msg : string).

Inductive result (A : Type) :=
| Return (a : A)
| Raise (e : exn).
Arguments Return {A} a.
Arguments Raise {A} e.

#[global] Instance result_ret : MRet result := @Return.
#[global] Instance result_bind : MBind result := λ A B f r,
  match r with
  | Return a => f a
  | Raise e => Raise e
  end.

(** [isinstance(ex, urllib.error.URLError)] *)
Definition is_URLError (ex : exn) : bool :=
  match ex with
  | URLError _ | HTTPError _ _ => true
  | _ => false
  end.

(** [str(n)] for an [int]. *)
Definition str_int (n : Z) : string := pretty n.

(** [str(ex)] *)
Definition str_exn (ex : exn) : string :=
  match ex with
  | URLError reason => "<urlopen error " +:+ reason +:+ ">"
  | HTTPError code msg => "HTTP Error " +:+ str_int code +:+ ": " +:+ msg
  | KeyError key => "'" +:+ key +:+ "'"
  | NotImplementedError msg | ValueError msg | TypeError msg
  | FileExistsError msg | OtherError _ msg => msg
  end.

(** Truth value of a [str]: the empty string is false. *)
Definition str_bool (s : string) : bool :=
  match s with
  | EmptyString => false
  | String _ _ => true
  end.

(** [sub in s] for strings. *)
Definition contains (sub s : string) : Prop :=
  ∃ pre post, s = pre +:+ sub +:+ post.

(** ** String helpers used by [urllib.parse] *)

Module Str.

(** [c in s] *)
Fixpoint mem (c : ascii) (s : string) : bool :=
  match s with
  | EmptyString => false
  | String a r => if Ascii.eqb a c then true else mem c r
  end.

Fixpoint all (p : ascii → bool) (s : string) : bool :=
  match s with
  | EmptyString => true
  | String a r => p a && all p r
  end.

(** [s.split(c, 1)] when [c in s]: the text before and after the first
    [c]; [None] when [c] does not occur. *)
Fixpoint split1 (c : ascii) (s : string) : option (string * string) :=
  match s with
  | EmptyString => None
  | String a r =>
      if Ascii.eqb a c then Some (EmptyString, r)
      else match split1 c r with
           | Some (x, y) => Some (String a x, y)
           | None => None
           end
  end.

(** The text before and after the last [c]. *)
Fixpoint rsplit1 (c : ascii) (s : string) : option (string * string) :=
  match s with
  | EmptyString => None
  | String a r =>
      match rsplit1 c r with
      | Some (x, y) => Some (String a x, y)
      | None => if Ascii.eqb a c then Some (EmptyString, r) else None
      end
  end.

(** The longest prefix without a character satisfying [p], and the rest. *)
Fixpoint break (p : ascii → bool) (s : string) : string * string :=
  match s with
  | EmptyString => (EmptyString, EmptyString)
  | String a r =>
      if p a then (EmptyString, s)
      else let '(x, y) := break p r in (String a x, y)
  end.

(** [s.split(c)] *)
Fixpoint split (c : ascii) (s : string) : list string :=
  match s with
  | EmptyString => [EmptyString]
  | String a r =>
      if Ascii.eqb a c then EmptyString :: split c r
      else match split c r with
           | x :: l => String a x :: l
           | [] => [String a EmptyString]
           end
  end.

(** [sep.join(l)] *)
Fixpoint join (sep : string) (l : list string) : string :=
  match l with
  | [] => EmptyString
  | [x] => x
  | x :: l' => x +:+ sep +:+ join sep l'
  end.

Definition in_range (lo hi : N) (c : ascii) : bool :=
  (lo <=? N_of_ascii c)%N && (N_of_ascii c <=? hi)%N.

Definition is_upper : ascii → bool := in_range 65 90.
Definition is_lower : ascii → bool := in_range 97 122.
Definition is_digit : ascii → bool := in_range 48 57.
Definition is_ascii (c : ascii) : bool := (N_of_ascii c <? 128)%N.

(** [s.lower()] on ASCII text. *)
Definition lower_char (c : ascii) : ascii :=
  if is_upper c then ascii_of_N (N_of_ascii c + 32) else c.

Fixpoint lower (s : string) : string :=
  match s with
  | EmptyString => EmptyString
  | String a r => String (lower_char a) (lower r)
  end.

(** [s[1:]] *)
Definition tail (s : string) : string :=
  match s with
  | EmptyString => EmptyString
  | String _ r => r
  end.

(** [s[:len(pre)] == pre] *)
Definition starts_with (pre s : string) : bool := String.prefix pre s.

End Str.

(** ** Objects of the libraries the module calls *)

(** [urllib.request.Request]: the URL it was built from and its header
    dictionary. *)
Record Request := {
  full_url : string;
  headers : gmap string string;
}.

(** [Request.add_header(key, val)] stores the value under
    [key.capitalize()]; the only key the module uses, ['User-agent'], is
    its own capitalisation. *)
Definition add_header (key val : string) (r : Request) : Request :=
  {| full_url := full_url r; headers := <[key := val]> (headers r) |}.

(** The response object returned by [urlopen]: status code, reason
    phrase and the body that [read()] returns. *)
Record Response := {
  code : Z;
  msg : string;
  body : bytes;
}.

(** A parse tree of [bs4].  With the [html.parser] tree builder the
    value of [rel] is a list of the whitespace-separated tokens; the
    single-valued attributes, [href] among them, are strings. *)
#[warnings="-register-all"] Inductive Node :=
| Tag (name : string) (rel : option (list string))
      (attrs : gmap string string) (contents : list Node)
| NavigableString (text : string).

(** ** The runtime the module runs in

    Everything the module reaches through an import that is not
    transcribed below is a field of this class: whether PyQt could be
    imported and its image operations, the two checks of
    [urllib.parse.urlsplit] that need the [ipaddress] and [unicodedata]
    modules, the URL check of the [Request] constructor, the answer of the
    network to a request (which may depend on the requests made before),
    the HTML parser, the name generator of [tempfile], and the host's
    [free_media_name]. *)
Class Runtime := {
  with_pyqt : bool;
  QImage : Type;
  QImage_fromData : bytes → QImage;
  QImage_width : QImage → Z;
  QImage_height : QImage → Z;
  (** [img.scaled(QSize(w, h), Qt.KeepAspectRatio, Qt.SmoothTransformation)] *)
  QImage_scaled : QImage → Z → Z → QImage;
  (** [_check_bracketed_netloc], for a network location with both brackets *)
  check_bracketed_netloc : string → option exn;
  (** the NFKC part of [_checknetloc], for a non-ASCII network location *)
  check_nfkc_netloc : string → option exn;
  (** [Some e] when [Request(url)] raises [e] (a [ValueError] for an
      unknown URL type) *)
  Request_error : string → option exn;
  (** the outcome of [urlopen(request)] after the given earlier requests *)
  urlopen_outcome : list Request → Request → result Response;
  (** [BeautifulSoup(markup, "html.parser")]: the children of the document *)
  soup : bytes → list Node;
  (** [os.path.abspath(tempfile.gettempdir())] *)
  tempdir : string;
  (** the sequence of random names [tempfile] draws from *)
  candidate_name : nat → string;
  TMP_MAX : nat;
  (** [free_media_name(base, ext)] of the add-on's [exists] module, given
      the files that exist *)
  free_media_name : string → string → gset string → result (string * string);
}.

(** ** [urllib.parse] (CPython 3.11), for [str] arguments *)

Module urllib_parse.
Section urllib_parse.
Context `{Runtime}.

Definition uses_relative : list string :=
  [""; "ftp"; "http"; "gopher"; "nntp"; "imap"; "wais"; "file"; "https";
   "shttp"; "mms"; "prospero"; "rtsp"; "rtspu"; "sftp"; "svn"; "svn+ssh";
   "ws"; "wss"].

Definition uses_netloc : list string :=
  [""; "ftp"; "http"; "gopher"; "nntp"; "telnet"; "imap"; "wais"; "file";
   "mms"; "https"; "shttp"; "snews"; "prospero"; "rtsp"; "rtspu"; "rsync";
   "svn"; "svn+ssh"; "sftp"; "nfs"; "git"; "git+ssh"; "ws"; "wss"].

Definition uses_params : list string :=
  [""; "ftp"; "hdl"; "prospero"; "http"; "imap"; "https"; "shttp"; "rtsp";
   "rtspu"; "sip"; "sips"; "mms"; "sftp"; "tel"].

(** [x in l] for a list of strings *)
Definition str_in (x : string) (l : list string) : bool :=
  bool_decide (x ∈ l).

Definition is_alpha (c : ascii) : bool := Str.is_upper c || Str.is_lower c.

Definition scheme_chars (c : ascii) : bool :=
  is_alpha c || Str.is_digit c || Str.mem c "+-.".

(** [_WHATWG_C0_CONTROL_OR_SPACE]: the characters up to the space *)
Definition c0_control_or_space (c : ascii) : bool := (N_of_ascii c <=? 32)%N.

(** [_UNSAFE_URL_BYTES_TO_REMOVE]: tab, carriage return and line feed *)
Definition unsafe_url_byte (c : ascii) : bool :=
  let n := N_of_ascii c in ((n =? 9) || (n =? 13) || (n =? 10))%N.

Fixpoint lstrip (p : ascii → bool) (s : string) : string :=
  match s with
  | EmptyString => EmptyString
  | String a r => if p a then lstrip p r else s
  end.

Definition rstrip (p : ascii → bool) (s : string) : string :=
  String.rev (lstrip p (String.rev s)).

Fixpoint remove (p : ascii → bool) (s : string) : string :=
  match s with
  | EmptyString => EmptyString
  | String a r => if p a then remove p r else String a (remove p r)
  end.

Record SplitResult := {
  scheme : string;
  netloc : string;
  path : string;
  query : string;
  fragment : string;
}.

(** [_splitnetloc(url, 2)] on a [url] that starts with two slashes, given
    the text after them: the network location ends at the first of
    [/], [?] and [#]. *)
Definition _splitnetloc (after_slashes : string) : string * string :=
  Str.break (λ c, Str.mem c "/?#") after_slashes.

Definition _checknetloc (netloc : string) : option exn :=
  if negb (str_bool netloc) || Str.all Str.is_ascii netloc then None
  else check_nfkc_netloc netloc.

Definition raise_if {A} (o : option exn) (k : result A) : result A :=
  match o with
  | Some e => Raise e
  | None => k
  end.

Definition urlsplit (url scheme : string) : result SplitResult :=
  let url := lstrip c0_control_or_space url in
  let scheme := rstrip c0_control_or_space (lstrip c0_control_or_space scheme) in
  let url := remove unsafe_url_byte url in
  let scheme := remove unsafe_url_byte scheme in
  let '(scheme, url) :=
    match Str.split1 ":" url with
    | Some (String c0 _ as pre, rest) =>
        if Str.is_ascii c0 && is_alpha c0 && Str.all scheme_chars pre
        then (Str.lower pre, rest)
        else (scheme, url)
    | _ => (scheme, url)
    end in
  '(netloc, url) ←
    match url with
    | String "/" (String "/" after_slashes) =>
        let '(netloc, url) := _splitnetloc after_slashes in
        if Str.mem "[" netloc && negb (Str.mem "]" netloc)
           || Str.mem "]" netloc && negb (Str.mem "[" netloc)
        then Raise (ValueError "Invalid IPv6 URL")
        else raise_if
               (if Str.mem "[" netloc && Str.mem "]" netloc
                then check_bracketed_netloc netloc else None)
               (Return (netloc, url))
    | _ => Return (EmptyString, url)
    end;
  let '(url, fragment) :=
    match Str.split1 "#" url with
    | Some (u, f) => (u, f)
    | None => (url, EmptyString)
    end in
  let '(url, query) :=
    match Str.split1 "?" url with
    | Some (u, q) => (u, q)
    | None => (url, EmptyString)
    end in
  raise_if (_checknetloc netloc)
    (Return {| scheme := scheme; netloc := netloc; path := url;
               query := query; fragment := fragment |}).

Record ParseResult := {
  p_scheme : string;
  p_netloc : string;
  p_path : string;
  p_params : string;
  p_query : string;
  p_fragment : string;
}.

(** [_splitparams]: the parameters follow the first [;] of the last path
    segment.  Without a slash and without a [;] the index is [-1], so
    the slices are [url[:-1]] and [url[0:]]. *)
Definition _splitparams (url : string) : string * string :=
  match Str.rsplit1 "/" url with
  | Some (dir, last) =>
      match Str.split1 ";" last with
      | Some (seg, params) => (dir +:+ "/" +:+ seg, params)
      | None => (url, EmptyString)
      end
  | None =>
      match Str.split1 ";" url with
      | Some (seg, params) => (seg, params)
      | None => (String.rev (Str.tail (String.rev url)), url)
      end
  end.

Definition urlparse (url scheme : string) : result ParseResult :=
  r ← urlsplit url scheme;
  let '(url, params) :=
    if str_in (urllib_parse.scheme r) uses_params && Str.mem ";" (path r)
    then _splitparams (path r)
    else (path r, EmptyString) in
  Return {| p_scheme := urllib_parse.scheme r; p_netloc := netloc r;
            p_path := url; p_params := params; p_query := query r;
            p_fragment := fragment r |}.

Definition urlunsplit (scheme netloc url query fragment : string) : string :=
  let url :=
    if str_bool netloc
       || str_bool scheme && str_in scheme uses_netloc
          && negb (Str.starts_with "//" url)
    then "//" +:+ netloc +:+
         (if str_bool url && negb (Str.starts_with "/" url)
          then "/" +:+ url else url)
    else url in
  let url := if str_bool scheme then scheme +:+ ":" +:+ url else url in
  let url := if str_bool query then url +:+ "?" +:+ query else url in
  if str_bool fragment then url +:+ "#" +:+ fragment else url.

Definition urlunparse (scheme netloc url params query fragment : string)
  : string :=
  let url := if str_bool params then url +:+ ";" +:+ params else url in
  urlunsplit scheme netloc url query fragment.

(** [segments[1:-1] = filter(None, segments[1:-1])] *)
Definition drop_empty_inner (segments : list string) : list string :=
  match segments with
  | first :: (_ :: _) as others =>
      first :: filter (λ seg, str_bool seg = true) (removelast others)
            ++ [List.last others EmptyString]
  | _ => segments
  end.

(** The loop over the segments: [..] pops (when it can), [.] is skipped. *)
Definition resolve_step (resolved_path : list string) (seg : string)
  : list string :=
  if String.eqb seg ".." then removelast resolved_path
  else if String.eqb seg "." then resolved_path
  else resolved_path ++ [seg].

Definition urljoin (base url : string) : result string :=
  if negb (str_bool base) then Return url
  else if negb (str_bool url) then Return base
  else
    b ← urlparse base EmptyString;
    u ← urlparse url (p_scheme b);
    let scheme := p_scheme u in
    if negb (String.eqb scheme (p_scheme b)) || negb (str_in scheme uses_relative)
    then Return url
    else if str_in scheme uses_netloc && str_bool (p_netloc u)
    then Return (urlunparse scheme (p_netloc u) (p_path u) (p_params u)
                   (p_query u) (p_fragment u))
    else
      let netloc :=
        if str_in scheme uses_netloc then p_netloc b else p_netloc u in
      if negb (str_bool (p_path u)) && negb (str_bool (p_params u))
      then Return (urlunparse scheme netloc (p_path b) (p_params b)
                     (if str_bool (p_query u) then p_query u else p_query b)
                     (p_fragment u))
      else
        let base_parts := Str.split "/" (p_path b) in
        let base_parts :=
          if str_bool (List.last base_parts EmptyString)
          then removelast base_parts else base_parts in
        let segments :=
          if Str.starts_with "/" (p_path u) then Str.split "/" (p_path u)
          else drop_empty_inner (base_parts ++ Str.split "/" (p_path u)) in
        let resolved_path := foldl resolve_step [] segments in
        let last_seg := List.last segments EmptyString in
        let resolved_path :=
          if String.eqb last_seg "." || String.eqb last_seg ".."
          then resolved_path ++ [EmptyString] else resolved_path in
        let joined := Str.join "/" resolved_path in
        Return (urlunparse scheme netloc
                  (if str_bool joined then joined else "/")
                  (p_params u) (p_query u) (p_fragment u)).

(** [_ALWAYS_SAFE] together with the default [safe='/'] *)
Definition quote_safe (c : ascii) : bool :=
  is_alpha c || Str.is_digit c || Str.mem c "_.-~" || Str.mem c "/".

Definition hexdigit (n : N) : ascii :=
  if (n <? 10)%N then ascii_of_N (48 + n) else ascii_of_N (55 + n).

(** ['%{:02X}'.format(b)] *)
Definition percent_encode (c : ascii) : string :=
  let n := N_of_ascii c in
  String "%" (String (hexdigit (n / 16)) (String (hexdigit (n mod 16)) EmptyString)).

(** [quote(string)]: every byte of the UTF-8 encoding that is not safe is
    replaced by its percent escape. *)
Fixpoint quote (s : string) : string :=
  match s with
  | EmptyString => EmptyString
  | String c r =>
      (if quote_safe c then String c EmptyString else percent_encode c)
      +:+ quote r
  end.

End urllib_parse.
End urllib_parse.

(** ** [bs4]: searching the parse tree *)

(** A node followed by its descendants, in document order. *)
Fixpoint subtree (n : Node) : list Node :=
  n :: match n with
       | Tag _ _ _ contents => flat_map subtree contents
       | NavigableString _ => []
       end.

Definition descendants (doc : list Node) : list Node := flat_map subtree doc.

(** Matching the multi-valued attribute [rel] against a string: one of
    the tokens is the string, or the tokens joined by spaces are. *)
Definition rel_matches (rel : option (list string)) (match_against : string)
  : bool :=
  match rel with
  | Some tokens =>
      existsb (String.eqb match_against) tokens
      || String.eqb (Str.join " " tokens) match_against
  | None => negb (str_bool match_against)
  end.

Definition tag_matches (name rel : string) (n : Node) : bool :=
  match n with
  | Tag tag_name tag_rel _ _ => String.eqb tag_name name && rel_matches tag_rel rel
  | NavigableString _ => false
  end.

(** [page_soup.find(name=name, attrs={'rel': rel})]: the first matching
    tag of the document, or [None]. *)
Definition find (page_soup : list Node) (name rel : string) : option Node :=
  List.find (tag_matches name rel) (descendants page_soup).

(** [found[key]] on the result of [find]: subscripting [None] (or a
    string) is a [TypeError], a tag without the attribute a [KeyError]. *)
Definition getitem (found : option Node) (key : string) : result string :=
  match found with
  | None => Raise (TypeError "'NoneType' object is not subscriptable")
  | Some (NavigableString _) =>
      Raise (TypeError "string indices must be integers")
  | Some (Tag _ _ attrs _) =>
      match attrs !! key with
      | Some value => Return value
      | None => Raise (KeyError key)
      end
  end.

(** ** The state of a run and the monad of methods *)

(** [DEBUG = None] *)
Definition DEBUG : bool := false.

(** What the module can observe and change outside the downloader: the
    requests handed to [urlopen] so far, the messages shown with
    [showInfo], the files that exist, and how many names [tempfile] has
    drawn. *)
Record World := {
  requests : list Request;
  messages : list string;
  files : gset string;
  names_drawn : nat;
}.

Section downloader.
Context `{Runtime}.

Record AudioDownloader := {
  language : string;
  downloads_list : list (string * string * gmap string string);
  display_text : string;
  base_name : string;
  file_extension : string;
  url : string;
  icon_url : string;
  max_icon_size : Z;
  user_agent : string;
  use_temp_files : bool;
  download_directory : option string;
  show_skull_and_bones : bool;
  site_icon : option QImage;
}.

(** [AudioDownloader.__init__] *)
Definition __init__ : AudioDownloader := {|
  language := "";
  downloads_list := [];
  display_text := "";
  base_name := "";
  file_extension := ".wav";
  url := "";
  icon_url := "";
  max_icon_size := 20;
  user_agent := "Mozilla/5.0";
  use_temp_files := false;
  download_directory := None;
  show_skull_and_bones := false;
  site_icon := None;
|}.

Record Store := {
  self : AudioDownloader;
  world : World;
}.

(** A method runs on a store and ends by returning or raising; what it
    changed before raising stays changed. *)
Definition M (A : Type) : Type := Store → result A * Store.

#[global] Instance M_ret : MRet M := λ A a s, (Return a, s).
#[global] Instance M_bind : MBind M := λ A B f m s,
  match m s with
  | (Return a, s') => f a s'
  | (Raise e, s') => (Raise e, s')
  end.

Definition raise {A} (e : exn) : M A := λ s, (Raise e, s).

Definition lift {A} (r : result A) : M A := λ s, (r, s).

Definition get_self : M AudioDownloader := λ s, (Return (self s), s).

(** [try: body except (classes) as ex: handler(ex)] *)
Definition try_except {A} (body : M A) (caught : exn → bool)
  (handler : exn → M A) : M A := λ s,
  match body s with
  | (Raise ex, s') => if caught ex then handler ex s' else (Raise ex, s')
  | r => r
  end.

(** Assignments to the attributes the methods write. *)
Definition set_site_icon (v : option QImage) : M unit := λ s,
  let d := self s in
  (Return (),
   {| self := {| language := language d;
                 downloads_list := downloads_list d;
                 display_text := display_text d;
                 base_name := base_name d;
                 file_extension := file_extension d;
                 url := url d;
                 icon_url := icon_url d;
                 max_icon_size := max_icon_size d;
                 user_agent := user_agent d;
                 use_temp_files := use_temp_files d;
                 download_directory := download_directory d;
                 show_skull_and_bones := show_skull_and_bones d;
                 site_icon := v |};
      world := world s |}).

Definition set_base_name (v : string) : M unit := λ s,
  let d := self s in
  (Return (),
   {| self := {| language := language d;
                 downloads_list := downloads_list d;
                 display_text := display_text d;
                 base_name := v;
                 file_extension := file_extension d;
                 url := url d;
                 icon_url := icon_url d;
                 max_icon_size := max_icon_size d;
                 user_agent := user_agent d;
                 use_temp_files := use_temp_files d;
                 download_directory := download_directory d;
                 show_skull_and_bones := show_skull_and_bones d;
                 site_icon := site_icon d |};
      world := world s |}).

Definition set_display_text (v : string) : M unit := λ s,
  let d := self s in
  (Return (),
   {| self := {| language := language d;
                 downloads_list := downloads_list d;
                 display_text := v;
                 base_name := base_name d;
                 file_extension := file_extension d;
                 url := url d;
                 icon_url := icon_url d;
                 max_icon_size := max_icon_size d;
                 user_agent := user_agent d;
                 use_temp_files := use_temp_files d;
                 download_directory := download_directory d;
                 show_skull_and_bones := show_skull_and_bones d;
                 site_icon := site_icon d |};
      world := world s |}).

(** [urllib.request.Request(url)] *)
Definition new_Request (url : string) : M Request :=
  match Request_error url with
  | Some e => raise e
  | None => mret {| full_url := url; headers := ∅ |}
  end.

(** [urllib.request.urlopen(request)]: the request is recorded and the
    network answers. *)
Definition urlopen (request : Request) : M Response := λ s,
  let w := world s in
  (urlopen_outcome (requests w) request,
   {| self := self s;
      world := {| requests := requests w ++ [request];
                  messages := messages w;
                  files := files w;
                  names_drawn := names_drawn w |} |}).

(** [aqt.utils.showInfo(text)] *)
Definition showInfo (text : string) : M unit := λ s,
  let w := world s in
  (Return (),
   {| self := self s;
      world := {| requests := requests w;
                  messages := messages w ++ [text];
                  files := files w;
                  names_drawn := names_drawn w |} |}).

(** Truth value of [self.site_icon]: [None] is false, a [QImage] object
    is true ([QImage] defines neither [__bool__] nor [__len__]). *)
Definition icon_bool (icon : option QImage) : bool :=
  match icon with
  | Some _ => true
  | None => false
  end.

(** The arguments are not looked at, so they may be of any type. *)
Definition download_files {W B R S : Type} (word : W) (base : B) (ruby : R)
  (split : S) : M unit :=
  raise (NotImplementedError "Use a class derived from this.").

Definition set_names (text dummy_base dummy_ruby : string) : M unit :=
  set_base_name text;;
  set_display_text text.

Definition get_favicon : M unit :=
  self ← get_self;
  if icon_bool (site_icon self) then mret ()
  else if negb with_pyqt then set_site_icon None
  else
    ico_url ← lift (urllib_parse.urljoin (icon_url self) "/favicon.ico");
    ico_request ← new_Request ico_url;
    let ico_request :=
      if str_bool (user_agent self)
      then add_header "User-agent" (user_agent self) ico_request
      else ico_request in
    ico_response ← urlopen ico_request;
    if negb (code ico_response =? 200)%Z then set_site_icon None
    else
      let image := QImage_fromData (body ico_response) in
      set_site_icon (Some image);;
      let max_size := max_icon_size self in
      if (max_size <? QImage_width image)%Z
         || (max_size <? QImage_height image)%Z
      then set_site_icon (Some (QImage_scaled image max_size max_size))
      else mret ().

Definition maybe_get_icon : M unit :=
  self ← get_self;
  if icon_bool (site_icon self) then mret ()
  else if negb with_pyqt then set_site_icon None
  else
    page_request ← new_Request (icon_url self);
    let page_request :=
      if str_bool (user_agent self)
      then add_header "User-agent" (user_agent self) page_request
      else page_request in
    page_response ← urlopen page_request;
    if negb (code page_response =? 200)%Z then get_favicon
    else
      let page_soup := soup (body page_response) in
      match getitem (find page_soup "link" "icon") "href" with
      | Raise (TypeError _) | Raise (KeyError _) => get_favicon
      | Raise ex => raise ex
      | Return icon_url =>
          (* The url may be absolute or relative. *)
          split_url ← lift (urllib_parse.urlsplit icon_url "");
          icon_url ←
            (if negb (str_bool (urllib_parse.netloc split_url))
             then lift (urllib_parse.urljoin (url self)
                          (urllib_parse.quote icon_url))
             else mret icon_url);
          fetched ← try_except
            (icon_request ← new_Request icon_url;
             let icon_request :=
               if str_bool (user_agent self)
               then add_header "User-agent" (user_agent self) icon_request
               else icon_request in
             icon_response ← urlopen icon_request;
             if negb (code icon_response =? 200)%Z
             then set_site_icon None;; mret None
             else mret (Some icon_response))
            is_URLError
            (λ ex,
               (if DEBUG
                then showInfo ("URL error for '" +:+ icon_url +:+ "': "
                               +:+ str_exn ex)
                else mret ());;
               mret None);
          match fetched with
          | None => mret ()
          | Some icon_response =>
              let image := QImage_fromData (body icon_response) in
              set_site_icon (Some image);;
              let max_size := max_icon_size self in
              if (max_size <? QImage_width image)%Z
                 || (max_size <? QImage_height image)%Z
              then set_site_icon (Some (QImage_scaled image max_size max_size))
              else mret ()
          end
      end.

Definition get_data_from_url (url_in : string) : M bytes :=
  self ← get_self;
  request ← new_Request url_in;
  let request := add_header "User-agent" (user_agent self) request in
  response ← urlopen request;
  if negb (code response =? 200)%Z
  then raise (ValueError (str_int (code response) +:+ ": " +:+ msg response))
  else mret (body response).

Definition get_soup_from_url (url_in : string) : M (list Node) :=
  data ← get_data_from_url url_in;
  mret (soup data).

(** [tempfile]: drawing the next candidate name. *)
Definition next_candidate_name : M string := λ s,
  let w := world s in
  (Return (candidate_name (names_drawn w)),
   {| self := self s;
      world := {| requests := requests w;
                  messages := messages w;
                  files := files w;
                  names_drawn := S (names_drawn w) |} |}).

(** [os.open(file, O_RDWR | O_CREAT | O_EXCL, 0o600)]: creates the file
    unless it exists. *)
Definition os_open_excl (file : string) : M unit := λ s,
  let w := world s in
  if decide (file ∈ files w)
  then (Raise (FileExistsError "File exists"), s)
  else (Return (),
        {| self := self s;
           world := {| requests := requests w;
                       messages := messages w;
                       files := {[file]} ∪ files w;
                       names_drawn := names_drawn w |} |}).

Definition is_FileExistsError (ex : exn) : bool :=
  match ex with
  | FileExistsError _ => true
  | _ => false
  end.

(** [posixpath.join(a, b)] *)
Definition os_path_join (a b : string) : string :=
  if Str.starts_with "/" b then b
  else if negb (str_bool a) || Str.starts_with "/" (String.rev a) then a +:+ b
  else a +:+ "/" +:+ b.

(** [tempfile._mkstemp_inner]: at most [attempts] candidate names are
    tried; a name that exists is skipped. *)
Fixpoint _mkstemp_inner (attempts : nat) (dir pre suf : string) : M string :=
  match attempts with
  | O => raise (FileExistsError "No usable temporary file name found")
  | S attempts' =>
      name ← next_candidate_name;
      let file := os_path_join dir (pre +:+ name +:+ suf) in
      opened ← try_except (os_open_excl file;; mret true)
                  is_FileExistsError (λ _, mret false);
      if opened : bool then mret file
      else _mkstemp_inner attempts' dir pre suf
  end.

(** [tempfile.NamedTemporaryFile(delete=False, suffix=suffix)], reduced to
    the [name] of the file it leaves behind. *)
Definition NamedTemporaryFile (suffix : string) : M string :=
  _mkstemp_inner TMP_MAX tempdir "tmp" suffix.

Definition get_file_name : M (string * string) :=
  self ← get_self;
  if use_temp_files self
  then
    tfile_name ← NamedTemporaryFile (file_extension self);
    mret (tfile_name, tfile_name)
  else
    λ s, (free_media_name (base_name self) (file_extension self)
            (files (world s)), s).

(** The request the icon methods send for [url]: the user agent is added
    when it is not empty. *)
Definition agent_request (user_agent url : string) : Request :=
  let request := {| full_url := url; headers := ∅ |} in
  if str_bool user_agent then add_header "User-agent" user_agent request
  else request.

(** The store after [request] has been handed to [urlopen]. *)
Definition sent (request : Request) (s : Store) : Store :=
  (urlopen request s).2.

(** The store after [self.site_icon = v]. *)
Definition with_icon (v : option QImage) (s : Store) : Store :=
  (set_site_icon v s).2.

(** The image both icon methods store for the data of a response: the
    decoded image, scaled down when it is wider or higher than
    [max_size]. *)
Definition fitted_icon (max_size : Z) (data : bytes) : QImage :=
  let image := QImage_fromData data in
  if (max_size <? QImage_width image)%Z || (max_size <? QImage_height image)%Z
  then QImage_scaled image max_size max_size
  else image.

(** The address [maybe_get_icon] fetches for the link [href] of the page:
    a link without a network location is quoted and joined to the base
    URL, any other link is taken as it is. *)
Definition resolve_icon_url (base href : string) : result string :=
  split_url ← urllib_parse.urlsplit href "";
  if negb (str_bool (urllib_parse.netloc split_url))
  then urllib_parse.urljoin base (urllib_parse.quote href)
  else Return href.

(** [s'] has the requests of [s] and possibly more after them. *)
Definition extends (s s' : Store) : Prop :=
  ∃ rest, requests (world s') = requests (world s) ++ rest.

(** A method that only ever adds requests. *)
Definition grows {A} (m : M A) : Prop := ∀ s, extends s (m s).2.

(** [n] calls of a method in a row; the run stops at the first call that
    raises. *)
Fixpoint repeat_call (n : nat) (method : M unit) : M unit :=
  match n with
  | O => mret ()
  | S n' => method;; repeat_call n' method
  end.

(** A temporary-file path for the suffix [suf]: a name in the temporary
    directory made of the prefix, a drawn name and the suffix. *)
Definition is_temp_path (suf p : string) : Prop :=
  ∃ name, p = os_path_join tempdir ("tmp" +:+ name +:+ suf).

(** One of the next [TMP_MAX] candidate names is free. *)
Definition has_free_name (suf : string) (w : World) : Prop :=
  ∃ k, k < TMP_MAX ∧
       os_path_join tempdir
         ("tmp" +:+ candidate_name (names_drawn w + k) +:+ suf) ∉ files w.

End downloader.

(** ** A concrete runtime

    A small site, a toy image decoder and a deterministic name generator,
    on which the methods can be run. *)

Module Demo.

Record Image := {
  img_data : bytes;
  img_width : Z;
  img_height : Z;
}.

(** A decoder that makes an image as wide and as high as its data is long. *)
Definition fromData (data : bytes) : Image :=
  {| img_data := data;
     img_width := Z.of_nat (length data);
     img_height := Z.of_nat (length data) |}.

Definition scaled (image : Image) (w h : Z) : Image :=
  {| img_data := img_data image;
     img_width := Z.min w (img_width image);
     img_height := Z.min h (img_height image) |}.

(** [Request] accepts a URL that starts with a type: some characters
    other than [/] and [:], then a colon. *)
Definition request_error (url : string) : option exn :=
  match Str.split1 ":" url with
  | Some (String _ _ as type, _) =>
      if Str.mem "/" type
      then Some (ValueError ("unknown url type: '" +:+ url +:+ "'"))
      else None
  | _ => Some (ValueError ("unknown url type: '" +:+ url +:+ "'"))
  end.

(** A site: the answer to each URL it knows; other hosts cannot be
    reached. *)
Definition site := list (string * result Response).

Fixpoint route (routes : site) (url : string) : result Response :=
  match routes with
  | [] => Raise (URLError "[Errno -2] Name or service not known")
  | (u, r) :: routes' => if String.eqb u url then r else route routes' url
  end.

Definition serve (routes : site) (history : list Request) (request : Request)
  : result Response :=
  route routes (full_url request).

Definition page_with_icon : bytes :=
  list_byte_of_string "<html><head><link rel='icon' href='/icons/a.png'></head></html>".

Definition page_without_icon : bytes :=
  list_byte_of_string "<html><head><title>words</title></head></html>".

Definition parse (markup : bytes) : list Node :=
  if decide (markup = page_with_icon)
  then [Tag "html" None ∅
          [Tag "head" None ∅
             [Tag "link" (Some ["icon"]) {["href" := "/icons/a.png"]} []]]]
  else if decide (markup = page_without_icon)
  then [Tag "html" None ∅
          [Tag "head" None ∅
             [Tag "title" None ∅ [NavigableString "words"]]]]
  else [].

(** Every name is drawn twice in a row, so that a second allocation
    first meets the name of the first. *)
Definition names (n : nat) : string := "name" +:+ pretty (Nat.div2 n).

Definition runtime (pyqt : bool) (routes : site) : Runtime := {|
  with_pyqt := pyqt;
  QImage := Image;
  QImage_fromData := fromData;
  QImage_width := img_width;
  QImage_height := img_height;
  QImage_scaled := scaled;
  check_bracketed_netloc := λ _, None;
  check_nfkc_netloc := λ _, None;
  Request_error := request_error;
  urlopen_outcome := serve routes;
  soup := parse;
  tempdir := "/tmp";
  candidate_name := names;
  TMP_MAX := 100 * 100;
  free_media_name := λ base ext _, Return (base +:+ ext, base +:+ ext);
|}.

Definition ok (data : bytes) : result Response :=
  Return {| code := 200; msg := "OK"; body := data |}.

Definition not_found : result Response :=
  Return {| code := 404; msg := "Not Found"; body := [] |}.

Definition icon_data : bytes := list_byte_of_string "PNG".

Definition page_url : string := "https://example.com/page".
Definition icon_link_url : string := "https://example.com/icons/a.png".
Definition favicon_url : string := "https://example.com/favicon.ico".

(** The page declares an icon and the icon can be fetched. *)
Definition site_ok : site :=
  [(page_url, ok page_with_icon); (icon_link_url, ok icon_data)].

(** The page declares an icon, but the icon is missing. *)
Definition site_icon_missing : site :=
  [(page_url, ok page_with_icon); (icon_link_url, not_found)].

(** A status other than 200 that [urlopen] hands back without raising. *)
Definition no_content : result Response :=
  Return {| code := 204; msg := "No Content"; body := [] |}.

(** The page declares an icon, and its address answers 204. *)
Definition site_icon_empty : site :=
  [(page_url, ok page_with_icon); (icon_link_url, no_content)].

(** The page declares an icon on a link that cannot be reached. *)
Definition site_icon_unreachable : site :=
  [(page_url, ok page_with_icon)].

(** The page declares no icon; the conventional favicon exists. *)
Definition site_favicon_only : site :=
  [(page_url, ok page_without_icon); (favicon_url, ok icon_data)].

(** The page declares no icon and there is no favicon. *)
Definition site_no_icon : site :=
  [(page_url, ok page_without_icon); (favicon_url, not_found)].

(** The page answers with a status other than 200. *)
Definition site_page_missing : site :=
  [(page_url, not_found); (favicon_url, ok icon_data)].

(** Nothing can be reached. *)
Definition site_down : site := [].

Definition empty_world : World :=
  {| requests := []; messages := []; files := ∅; names_drawn := 0 |}.

(** A downloader for the site, as a derived class would set it up. *)
Definition downloader (R : Runtime) (temp : bool) : @AudioDownloader R := {|
  language := "en";
  downloads_list := [];
  display_text := "";
  base_name := "";
  file_extension := ".wav";
  url := page_url;
  icon_url := page_url;
  max_icon_size := 20;
  user_agent := "Mozilla/5.0";
  use_temp_files := temp;
  download_directory := None;
  show_skull_and_bones := false;
  site_icon := None;
|}.

Definition start (R : Runtime) (temp : bool) : @Store R :=
  {| self := downloader R temp; world := empty_world |}.

Definition page_request : Request :=
  {| full_url := page_url; headers := {["User-agent" := "Mozilla/5.0"]} |}.
Definition icon_request : Request :=
  {| full_url := icon_link_url; headers := {["User-agent" := "Mozilla/5.0"]} |}.
Definition favicon_request : Request :=
  {| full_url := favicon_url; headers := {["User-agent" := "Mozilla/5.0"]} |}.

End Demo.

(** ** The runs of the icon methods, case by case

    The relations below list the ways a call of [get_favicon] and of
    [maybe_get_icon] can go, each with the result and the store it ends
    with.  They are the specification the two methods are proved to meet;
    the properties of all runs are then read off the cases. *)

Section outcomes.
Context `{Runtime}.

(** The fetch both methods end with, on a downloader without an icon:
    build the request for [url], open it, and store the image of a
    response with status 200.  [swallow] tells whether the fetch stands in
    the [try] block of [maybe_get_icon], which turns a [URLError] into a
    normal return. *)
Inductive fetch_run (swallow : bool) (s : Store) (url : string)
  : result unit * Store → Prop :=
| fetch_rejected e :
    Request_error url = Some e →
    fetch_run swallow s url
      (if swallow && is_URLError e then Return () else Raise e, s)
| fetch_raises e :
    Request_error url = None →
    urlopen_outcome (requests (world s))
      (agent_request (user_agent (self s)) url) = Raise e →
    fetch_run swallow s url
      (if swallow && is_URLError e then Return () else Raise e,
       sent (agent_request (user_agent (self s)) url) s)
| fetch_status response :
    Request_error url = None →
    urlopen_outcome (requests (world s))
      (agent_request (user_agent (self s)) url) = Return response →
    code response ≠ 200%Z →
    fetch_run swallow s url
      (Return (), sent (agent_request (user_agent (self s)) url) s)
| fetch_stored response :
    Request_error url = None →
    urlopen_outcome (requests (world s))
      (agent_request (user_agent (self s)) url) = Return response →
    code response = 200%Z →
    fetch_run swallow s url
      (Return (),
       with_icon
         (Some (fitted_icon (max_icon_size (self s)) (body response)))
         (sent (agent_request (user_agent (self s)) url) s)).

Inductive favicon_run (s : Store) : result unit * Store → Prop :=
| favicon_cached image :
    site_icon (self s) = Some image →
    favicon_run s (Return (), s)
| favicon_no_pyqt :
    site_icon (self s) = None → with_pyqt = false →
    favicon_run s (Return (), s)
| favicon_bad_url e :
    site_icon (self s) = None → with_pyqt = true →
    urllib_parse.urljoin (icon_url (self s)) "/favicon.ico" = Raise e →
    favicon_run s (Raise e, s)
| favicon_fetch ico_url r :
    site_icon (self s) = None → with_pyqt = true →
    urllib_parse.urljoin (icon_url (self s)) "/favicon.ico" = Return ico_url →
    fetch_run false s ico_url r →
    favicon_run s r.

Inductive icon_run (s : Store) : result unit * Store → Prop :=
| icon_cached image :
    site_icon (self s) = Some image →
    icon_run s (Return (), s)
| icon_no_pyqt :
    site_icon (self s) = None → with_pyqt = false →
    icon_run s (Return (), s)
| icon_page_rejected e :
    site_icon (self s) = None → with_pyqt = true →
    Request_error (icon_url (self s)) = Some e →
    icon_run s (Raise e, s)
| icon_page_raises e :
    site_icon (self s) = None → with_pyqt = true →
    Request_error (icon_url (self s)) = None →
    urlopen_outcome (requests (world s))
      (agent_request (user_agent (self s)) (icon_url (self s))) = Raise e →
    icon_run s
      (Raise e,
       sent (agent_request (user_agent (self s)) (icon_url (self s))) s)
| icon_page_status page_response r :
    site_icon (self s) = None → with_pyqt = true →
    Request_error (icon_url (self s)) = None →
    urlopen_outcome (requests (world s))
      (agent_request (user_agent (self s)) (icon_url (self s)))
    = Return page_response →
    code page_response ≠ 200%Z →
    favicon_run
      (sent (agent_request (user_agent (self s)) (icon_url (self s))) s) r →
    icon_run s r
| icon_no_link page_response e r :
    site_icon (self s) = None → with_pyqt = true →
    Request_error (icon_url (self s)) = None →
    urlopen_outcome (requests (world s))
      (agent_request (user_agent (self s)) (icon_url (self s)))
    = Return page_response →
    code page_response = 200%Z →
    getitem (find (soup (body page_response)) "link" "icon") "href"
    = Raise e →
    favicon_run
      (sent (agent_request (user_agent (self s)) (icon_url (self s))) s) r →
    icon_run s r
| icon_link_invalid page_response href e :
    site_icon (self s) = None → with_pyqt = true →
    Request_error (icon_url (self s)) = None →
    urlopen_outcome (requests (world s))
      (agent_request (user_agent (self s)) (icon_url (self s)))
    = Return page_response →
    code page_response = 200%Z →
    getitem (find (soup (body page_response)) "link" "icon") "href"
    = Return href →
    resolve_icon_url (url (self s)) href = Raise e →
    icon_run s
      (Raise e,
       sent (agent_request (user_agent (self s)) (icon_url (self s))) s)
| icon_link_fetch page_response href target r :
    site_icon (self s) = None → with_pyqt = true →
    Request_error (icon_url (self s)) = None →
    urlopen_outcome (requests (world s))
      (agent_request (user_agent (self s)) (icon_url (self s)))
    = Return page_response →
    code page_response = 200%Z →
    getitem (find (soup (body page_response)) "link" "icon") "href"
    = Return href →
    resolve_icon_url (url (self s)) href = Return target →
    fetch_run true
      (sent (agent_request (user_agent (self s)) (icon_url (self s))) s)
      target r →
    icon_run s r.

(** The attributes no icon method assigns. *)
Definition same_config (d d' : AudioDownloader) : Prop :=
  language d' = language d ∧
  downloads_list d' = downloads_list d ∧
  display_text d' = display_text d ∧
  base_name d' = base_name d ∧
  file_extension d' = file_extension d ∧
  url d' = url d ∧
  icon_url d' = icon_url d ∧
  max_icon_size d' = max_icon_size d ∧
  user_agent d' = user_agent d ∧
  use_temp_files d' = use_temp_files d ∧
  download_directory d' = download_directory d ∧
  show_skull_and_bones d' = show_skull_and_bones d.

(** Nothing changed but the stored icon and the requests sent. *)
Definition icon_frame (s s' : Store) : Prop :=
  same_config (self s) (self s') ∧
  messages (world s') = messages (world s) ∧
  files (world s') = files (world s) ∧
  names_drawn (world s') = names_drawn (world s).

(** [s'] has at most [n] requests more than [s], each of them a request
    with the agent of the downloader. *)
Definition asked_at_most (n : nat) (s s' : Store) : Prop :=
  ∃ rest, requests (world s') = requests (world s) ++ rest ∧
          (length rest ≤ n)%nat ∧
          Forall (λ request,
                    request = agent_request (user_agent (self s))
                                (full_url request)) rest.

(** The icon of [s'] is the icon of [s], or [s] had none and the icon of
    [s'] is the image of the last response, which had status 200. *)
Definition icon_from_response (s s' : Store) : Prop :=
  site_icon (self s') = site_icon (self s) ∨
  (site_icon (self s) = None ∧
   ∃ history request response,
     requests (world s') = history ++ [request] ∧
     urlopen_outcome history request = Return response ∧
     code response = 200%Z ∧
     site_icon (self s') =
     Some (fitted_icon (max_icon_size (self s)) (body response))).

(** The stored icon, if any, is within [max_icon_size] on both sides. *)
Definition icon_fits (s : Store) : Prop :=
  match site_icon (self s) with
  | Some image =>
      (QImage_width image ≤ max_icon_size (self s))%Z ∧
      (QImage_height image ≤ max_icon_size (self s))%Z
  | None => True
  end.

(** What holds of every run of an icon method that sends at most [n]
    requests: the frame, the requests, where the icon comes from, and
    that a run that raises leaves the downloader as it was. *)
Definition run_summary (n : nat) (s : Store) (r : result unit * Store)
  : Prop :=
  icon_frame s r.2 ∧
  asked_at_most n s r.2 ∧
  icon_from_response s r.2 ∧
  (∀ e, r.1 = Raise e → self r.2 = self s).

(** [n] calls of [get_file_name] in a row, collecting the paths; the run
    stops at the first call that raises. *)
Fixpoint get_file_names (n : nat) : M (list string) :=
  match n with
  | O => mret []
  | S n' =>
      name ← get_file_name;
      names ← get_file_names n';
      mret (name.1 :: names)
  end.

(** The path of the [k]-th candidate name after those drawn in [w]. *)
Definition candidate_path (suf : string) (w : World) (k : nat) : string :=
  os_path_join tempdir ("tmp" +:+ candidate_name (names_drawn w + k) +:+ suf).

(** The store after [k] candidate names have been drawn. *)
Definition drawn (k : nat) (s : Store) : Store :=
  Nat.iter k (λ s', (next_candidate_name s').2) s.

(** Nothing changed but the files, which are still there, and the
    number of names drawn, which did not go down. *)
Definition file_frame (s s' : Store) : Prop :=
  self s' = self s ∧
  requests (world s') = requests (world s) ∧
  messages (world s') = messages (world s) ∧
  files (world s) ⊆ files (world s') ∧
  (names_drawn (world s) ≤ names_drawn (world s'))%nat.

End outcomes.

(** ** More pages and stores for the concrete runtime *)

Module Cases.
Import Demo.

Definition cdn_icon_url : string := "https://cdn.example.com/i.png".

Definition page_with_absolute_icon : bytes :=
  list_byte_of_string
    "<html><head><link rel='shortcut icon' href='https://cdn.example.com/i.png'></head></html>".

Definition page_with_malformed_icon : bytes :=
  list_byte_of_string
    "<html><head><link rel='icon' href='//[::1/icon.png'></head></html>".

Definition parse (markup : bytes) : list Node :=
  if decide (markup = page_with_absolute_icon)
  then [Tag "html" None ∅
          [Tag "head" None ∅
             [Tag "link" (Some ["shortcut"; "icon"])
                {["href" := cdn_icon_url]} []]]]
  else if decide (markup = page_with_malformed_icon)
  then [Tag "html" None ∅
          [Tag "head" None ∅
             [Tag "link" (Some ["icon"]) {["href" := "//[::1/icon.png"]} []]]]
  else Demo.parse markup.

(** The runtime of [Demo] with the larger parser and a chosen bound on
    the names [tempfile] tries. *)
Definition runtime (pyqt : bool) (routes : site) (tmp_max : nat) : Runtime := {|
  with_pyqt := pyqt;
  QImage := Image;
  QImage_fromData := fromData;
  QImage_width := img_width;
  QImage_height := img_height;
  QImage_scaled := scaled;
  check_bracketed_netloc := λ _, None;
  check_nfkc_netloc := λ _, None;
  Request_error := request_error;
  urlopen_outcome := serve routes;
  soup := parse;
  tempdir := "/tmp";
  candidate_name := names;
  TMP_MAX := tmp_max;
  free_media_name := λ base ext _, Return (base +:+ ext, base +:+ ext);
|}.

(** Thirty bytes, which the toy decoder makes an image of 30 by 30. *)
Definition big_icon_data : bytes :=
  list_byte_of_string "012345678901234567890123456789".

Definition site_absolute : site :=
  [(page_url, ok page_with_absolute_icon); (cdn_icon_url, ok big_icon_data)].

Definition site_malformed : site :=
  [(page_url, ok page_with_malformed_icon)].

Definition site_big_favicon : site :=
  [(page_url, not_found); (favicon_url, ok big_icon_data)].


(** A downloader that left [url] at its default, the empty string. *)
Definition downloader_without_url (R : Runtime) : @AudioDownloader R := {|
  language := "en";
  downloads_list := [];
  display_text := "";
  base_name := "";
  file_extension := ".wav";
  url := "";
  icon_url := page_url;
  max_icon_size := 20;
  user_agent := "Mozilla/5.0";
  use_temp_files := false;
  download_directory := None;
  show_skull_and_bones := false;
  site_icon := None;
|}.

Definition start_without_url (R : Runtime) : @Store R :=
  {| self := downloader_without_url R; world := empty_world |}.

(** A world in which the first temporary name is taken. *)
Definition crowded_world : World :=
  {| requests := []; messages := [];
     files := {["/tmp/tmpname0.wav"]}; names_drawn := 0 |}.

Definition crowded (R : Runtime) : @Store R :=
  {| self := downloader R true; world := crowded_world |}.

End Cases.

(** ** Answers as the libraries give them

    [urlopen] raises [HTTPError] for a 404 and hands back a 204; an icon
    link may carry a query; [QImage.scaled] with [Qt.KeepAspectRatio]
    keeps the proportions of the image. *)

Module Fixtures.
Import Demo.

(** What [urlopen] does with a 404: it raises. *)
Definition http_not_found : result Response :=
  Raise (HTTPError 404 "Not Found").

(** The page declares an icon, and its address answers 404. *)
Definition site_icon_http_error : site :=
  [(page_url, ok page_with_icon); (icon_link_url, http_not_found)].

(** The page declares no icon, and the favicon answers 204. *)
Definition site_favicon_empty : site :=
  [(page_url, ok page_without_icon); (favicon_url, no_content)].

(** The page answers 204; the conventional favicon exists. *)
Definition site_page_empty : site :=
  [(page_url, no_content); (favicon_url, ok icon_data)].

(** The page answers 204; the favicon is a large image. *)
Definition site_page_empty_big_favicon : site :=
  [(page_url, no_content); (favicon_url, ok Cases.big_icon_data)].

(** The page declares no icon; the favicon is a large image. *)
Definition site_no_link_big_favicon : site :=
  [(page_url, ok page_without_icon); (favicon_url, ok Cases.big_icon_data)].

(** An icon link with a query. *)
Definition query_icon_href : string := "/icons/a.png?v=2".

Definition page_with_query_icon : bytes :=
  list_byte_of_string
    "<html><head><link rel='icon' href='/icons/a.png?v=2'></head></html>".

Definition parse (markup : bytes) : list Node :=
  if decide (markup = page_with_query_icon)
  then [Tag "html" None ∅
          [Tag "head" None ∅
             [Tag "link" (Some ["icon"]) {["href" := query_icon_href]} []]]]
  else Cases.parse markup.



(** A decoder that makes an image twice as wide as it is high; no data
    gives the null image. *)
Definition wide_fromData (data : bytes) : Image :=
  {| img_data := data;
     img_width := 2 * Z.of_nat (length data);
     img_height := Z.of_nat (length data) |}.

Definition null_image : Image :=
  {| img_data := []; img_width := 0; img_height := 0 |}.

(** [QImage.scaled(QSize(w, h), Qt.KeepAspectRatio, _)]: a null image or
    an empty target size gives the null image; otherwise the largest
    size within [w] by [h] with the proportions of the image
    ([QSize.scaled]), each side at least 1. *)
Definition keep_ratio_scaled (image : Image) (w h : Z) : Image :=
  let iw := img_width image in
  let ih := img_height image in
  if ((iw <? 1) || (ih <? 1) || (w <? 1) || (h <? 1))%Z
  then null_image
  else
    let rw := (h * iw / ih)%Z in
    if (rw <=? w)%Z
    then {| img_data := img_data image;
            img_width := Z.max rw 1;
            img_height := Z.max h 1 |}
    else {| img_data := img_data image;
            img_width := Z.max w 1;
            img_height := Z.max (w * ih / iw) 1 |}.

(** The runtime of [Demo] with the larger parser and the images above. *)
Definition runtime (pyqt : bool) (routes : site) : Runtime := {|
  with_pyqt := pyqt;
  QImage := Image;
  QImage_fromData := wide_fromData;
  QImage_width := img_width;
  QImage_height := img_height;
  QImage_scaled := keep_ratio_scaled;
  check_bracketed_netloc := λ _, None;
  check_nfkc_netloc := λ _, None;
  Request_error := request_error;
  urlopen_outcome := serve routes;
  soup := parse;
  tempdir := "/tmp";
  candidate_name := names;
  TMP_MAX := 100 * 100;
  free_media_name := λ base ext _, Return (base +:+ ext, base +:+ ext);
|}.

End Fixtures.

(** * Properties *)

(** ** The deduplication helper *)

Section uniqify_facts.
Context {A : Type} `{EqDecision A}.
Implicit Types (l : list A) (x : A).

Lemma count_zero l x : count l x = 0 ↔ x ∉ l.
Proof.
  induction l as [|y l IH]; simpl.
  - split; [intros _; apply not_elem_of_nil | done].
  - rewrite not_elem_of_cons. destruct (decide (y = x)) as [->|Hne]; simpl.
    + split; [done | intros [? _]; done].
    + rewrite IH. split; [intros ?; split; [congruence | done] | tauto].
Qed.

Lemma uniqify_step_decide acc x :
  uniqify_step acc x = if decide (x ∈ acc) then acc else acc ++ [x].
Proof.
  unfold uniqify_step. destruct (Nat.eqb_spec (count acc x) 0) as [H0|H0].
  - apply count_zero in H0. by rewrite decide_False.
  - rewrite decide_True; [done|].
    destruct (decide (x ∈ acc)) as [|Hn]; [done|].
    by apply count_zero in Hn.
Qed.

Lemma uniqify_list_snoc l x :
  uniqify_list (l ++ [x]) = uniqify_step (uniqify_list l) x.
Proof. unfold uniqify_list. by rewrite foldl_app. Qed.

Lemma uniqify_list_elem_of l x : x ∈ uniqify_list l ↔ x ∈ l.
Proof.
  induction l as [|y l IH] using rev_ind.
  - done.
  - rewrite uniqify_list_snoc, uniqify_step_decide.
    destruct (decide (y ∈ uniqify_list l)) as [Hin|Hin].
    + rewrite elem_of_app, list_elem_of_singleton, IH.
      split; [tauto|]. intros [?| ->]; [done|]. by apply IH.
    + by rewrite !elem_of_app, IH.
Qed.

Lemma uniqify_list_snoc_decide l x :
  uniqify_list (l ++ [x]) =
  if decide (x ∈ l) then uniqify_list l else uniqify_list l ++ [x].
Proof.
  rewrite uniqify_list_snoc, uniqify_step_decide.
  destruct (decide (x ∈ l)) as [Hin|Hin].
  - rewrite decide_True; [done | by apply uniqify_list_elem_of].
  - rewrite decide_False; [done | by rewrite uniqify_list_elem_of].
Qed.

Lemma uniqify_list_NoDup l : NoDup (uniqify_list l).
Proof.
  induction l as [|y l IH] using rev_ind.
  - constructor.
  - rewrite uniqify_list_snoc_decide. case_decide; [done|].
    apply NoDup_app. split_and!; [done | | apply NoDup_singleton].
    intros z Hz Hzy%list_elem_of_singleton. subst z.
  apply H. by apply uniqify_list_elem_of.
Qed.

Lemma uniqify_list_sublist l : uniqify_list l `sublist_of` l.
Proof.
  induction l as [|y l IH] using rev_ind.
  - done.
  - rewrite uniqify_list_snoc_decide. case_decide.
    + by apply sublist_inserts_r.
    + by apply sublist_app.
Qed.

(** A list without repetitions is returned as it is. *)
Lemma uniqify_list_NoDup_id l : NoDup l → uniqify_list l = l.
Proof.
  induction l as [|y l IH] using rev_ind; [done|].
  intros [Hl [Hdisj _]]%NoDup_app.
  rewrite uniqify_list_snoc_decide, IH by done.
  rewrite decide_False; [done|].
  intros Hy. apply (Hdisj y Hy). by apply list_elem_of_singleton.
Qed.

Lemma is_first_occurrence_app l l' i :
  i < length l →
  is_first_occurrence (l ++ l') i = is_first_occurrence l i.
Proof.
  intros Hi. unfold is_first_occurrence.
  rewrite lookup_app_l by done.
  rewrite take_app_le by lia. done.
Qed.

Lemma is_first_occurrence_last l x :
  is_first_occurrence (l ++ [x]) (length l) =
  if decide (x ∈ l) then None else Some x.
Proof.
  unfold is_first_occurrence.
  rewrite list_lookup_middle by done.
  by rewrite take_app_length.
Qed.

Lemma first_occurrences_snoc l x :
  first_occurrences (l ++ [x]) =
  if decide (x ∈ l) then first_occurrences l else first_occurrences l ++ [x].
Proof.
  unfold first_occurrences.
  rewrite length_app, seq_app, omap_app. simpl.
  rewrite is_first_occurrence_last.
  assert (omap (is_first_occurrence (l ++ [x])) (seq 0 (length l)) =
          omap (is_first_occurrence l) (seq 0 (length l))) as ->.
  { apply list_omap_ext, Forall2_same_length_lookup. split; [done|].
    intros i j j' Hj Hj'. simplify_eq. apply lookup_seq in Hj as [-> ?].
    by apply is_first_occurrence_app. }
  case_decide; simpl; [by rewrite app_nil_r | done].
Qed.

Lemma uniqify_list_first_occurrences l :
  uniqify_list l = first_occurrences l.
Proof.
  induction l as [|y l IH] using rev_ind; [done|].
  by rewrite uniqify_list_snoc_decide, first_occurrences_snoc, IH.
Qed.

(** C4.  [uniqify_list] returns the first occurrences of the elements
    of its input, in the order of the input: the result is the list of
    the positions whose element does not occur earlier, it has no
    repeated element, it is a subsequence of the input with the same
    elements, and a second application changes nothing. *)
Theorem uniqify_list_correct l :
  uniqify_list l = first_occurrences l ∧
  NoDup (uniqify_list l) ∧
  uniqify_list l `sublist_of` l ∧
  (∀ x, x ∈ uniqify_list l ↔ x ∈ l) ∧
  uniqify_list (uniqify_list l) = uniqify_list l.
Proof.
  split_and!.
  - apply uniqify_list_first_occurrences.
  - apply uniqify_list_NoDup.
  - apply uniqify_list_sublist.
  - apply uniqify_list_elem_of.
  - apply uniqify_list_NoDup_id, uniqify_list_NoDup.
Qed.
End uniqify_facts.


(** ** Running methods *)

Section downloader_facts.
Context `{Runtime}.
Implicit Types (s : Store) (request : Request).

Lemma bind_Return {A B} (m : M A) (f : A → M B) s a s' :
  m s = (Return a, s') → (m ≫= f) s = f a s'.
Proof. intros Hm. unfold mbind, M_bind. by rewrite Hm. Qed.

Lemma bind_Raise {A B} (m : M A) (f : A → M B) s e s' :
  m s = (Raise e, s') → (m ≫= f) s = (Raise e, s').
Proof. intros Hm. unfold mbind, M_bind. by rewrite Hm. Qed.

(** Assigning to [site_icon] the value it has changes nothing. *)
Lemma set_site_icon_same s v :
  site_icon (self s) = v → set_site_icon v s = (Return (), s).
Proof. destruct s as [[] ?]. simpl. by intros <-. Qed.

Lemma set_site_icon_world s v : world (set_site_icon v s).2 = world s.
Proof. done. Qed.

Lemma set_site_icon_icon s v : site_icon (self (set_site_icon v s).2) = v.
Proof. done. Qed.

(** *** The stored icon short-circuits both icon methods *)

Lemma maybe_get_icon_cached s image :
  site_icon (self s) = Some image → maybe_get_icon s = (Return (), s).
Proof.
  intros Hicon. unfold maybe_get_icon.
  rewrite (bind_Return _ _ s (self s) s) by done. by rewrite Hicon.
Qed.

Lemma get_favicon_cached s image :
  site_icon (self s) = Some image → get_favicon s = (Return (), s).
Proof.
  intros Hicon. unfold get_favicon.
  rewrite (bind_Return _ _ s (self s) s) by done. by rewrite Hicon.
Qed.

Lemma maybe_get_icon_without_pyqt s :
  with_pyqt = false → maybe_get_icon s = (Return (), s).
Proof.
  intros Hqt. destruct (site_icon (self s)) as [image|] eqn:Hicon.
  - by eapply maybe_get_icon_cached.
  - unfold maybe_get_icon.
    rewrite (bind_Return _ _ s (self s) s) by done.
    rewrite Hicon, Hqt. simpl. by apply set_site_icon_same.
Qed.

Lemma get_favicon_without_pyqt s :
  with_pyqt = false → get_favicon s = (Return (), s).
Proof.
  intros Hqt. destruct (site_icon (self s)) as [image|] eqn:Hicon.
  - by eapply get_favicon_cached.
  - unfold get_favicon.
    rewrite (bind_Return _ _ s (self s) s) by done.
    rewrite Hicon, Hqt. simpl. by apply set_site_icon_same.
Qed.

Lemma repeat_call_fixed (method : M unit) s n :
  method s = (Return (), s) → repeat_call n method s = (Return (), s).
Proof.
  intros Hm. induction n as [|n IH]; [done|].
  simpl. by rewrite (bind_Return _ _ s () s).
Qed.

(** C10.  Whatever the arguments, [download_files] of the base class
    raises [NotImplementedError] and leaves the downloader and the
    world as they were. *)
Theorem download_files_not_implemented {W B R S : Type}
  (word : W) (base : B) (ruby : R) (split : S) s :
  download_files word base ruby split s =
  (Raise (NotImplementedError "Use a class derived from this."), s).
Proof. reflexivity. Qed.

(** C8.  Without PyQt, [maybe_get_icon] and [get_favicon] return
    normally and leave the whole store as it was: no request is sent,
    no field of the downloader changes, and an icon that is unset stays
    unset. *)
Theorem icon_methods_without_pyqt s :
  with_pyqt = false →
  maybe_get_icon s = (Return (), s) ∧
  get_favicon s = (Return (), s) ∧
  requests (world (maybe_get_icon s).2) = requests (world s) ∧
  requests (world (get_favicon s).2) = requests (world s) ∧
  (site_icon (self s) = None →
   site_icon (self (maybe_get_icon s).2) = None ∧
   site_icon (self (get_favicon s).2) = None).
Proof.
  intros Hqt.
  rewrite (maybe_get_icon_without_pyqt s Hqt), (get_favicon_without_pyqt s Hqt).
  by split_and!.
Qed.

(** C7.  When a call of [maybe_get_icon] has returned with an image
    stored, any number of further calls return with the store as that
    call left it: no request is added and the icon is the same. *)
Theorem stored_icon_not_fetched_again s s1 image n :
  maybe_get_icon s = (Return (), s1) →
  site_icon (self s1) = Some image →
  repeat_call n maybe_get_icon s1 = (Return (), s1) ∧
  requests (world (repeat_call n maybe_get_icon s1).2) = requests (world s1) ∧
  site_icon (self (repeat_call n maybe_get_icon s1).2) = Some image.
Proof.
  intros _ Hicon.
  rewrite (repeat_call_fixed _ s1 n (maybe_get_icon_cached s1 image Hicon)).
  by split_and!.
Qed.

(** *** Requests are only ever added *)

Lemma extends_refl s : extends s s.
Proof. exists []. by rewrite app_nil_r. Qed.

Lemma extends_trans s1 s2 s3 : extends s1 s2 → extends s2 s3 → extends s1 s3.
Proof.
  intros [r1 H1] [r2 H2]. exists (r1 ++ r2). by rewrite H2, H1, app_assoc.
Qed.

Lemma extends_same_world s s' : world s' = world s → extends s s'.
Proof. intros Hw. unfold extends. rewrite Hw. exists []. by rewrite app_nil_r. Qed.

Lemma grows_ret {A} (a : A) : grows (mret a).
Proof. intros s. apply extends_refl. Qed.

Lemma grows_raise {A} e : grows (raise (A := A) e).
Proof. intros s. apply extends_refl. Qed.

Lemma grows_lift {A} (r : result A) : grows (lift r).
Proof. intros s. apply extends_refl. Qed.

Lemma grows_get_self : grows get_self.
Proof. intros s. apply extends_refl. Qed.

Lemma grows_set_site_icon v : grows (set_site_icon v).
Proof. intros s. by apply extends_same_world. Qed.

Lemma grows_showInfo text : grows (showInfo text).
Proof. intros s. exists []. by rewrite app_nil_r. Qed.

Lemma grows_new_Request url : grows (new_Request url).
Proof.
  unfold new_Request. destruct (Request_error url); intros s; apply extends_refl.
Qed.

Lemma grows_urlopen request : grows (urlopen request).
Proof. intros s. by exists [request]. Qed.

Lemma grows_bind {A B} (m : M A) (f : A → M B) :
  grows m → (∀ a, grows (f a)) → grows (m ≫= f).
Proof.
  intros Hm Hf s. unfold mbind, M_bind.
  specialize (Hm s). destruct (m s) as [[a|e] s']; simpl in *; [|done].
  eapply extends_trans; [done | apply Hf].
Qed.

Lemma grows_try_except {A} (body : M A) caught handler :
  grows body → (∀ ex, grows (handler ex)) → grows (try_except body caught handler).
Proof.
  intros Hb Hh s. unfold try_except.
  specialize (Hb s). destruct (body s) as [[a|ex] s']; simpl in *; [done|].
  destruct (caught ex); [|done].
  eapply extends_trans; [done | apply Hh].
Qed.

Ltac grows :=
  repeat first
    [ apply grows_ret | apply grows_raise | apply grows_lift
    | apply grows_get_self | apply grows_set_site_icon | apply grows_showInfo
    | apply grows_new_Request | apply grows_urlopen
    | apply grows_bind; [|intros ?]
    | apply grows_try_except; [|intros ?]
    | match goal with
      | |- grows (if ?b then _ else _) => destruct b
      | |- grows (match ?x with _ => _ end) => destruct x
      | |- grows (let _ := _ in _) => cbv zeta
      end ].

Lemma grows_get_favicon : grows get_favicon.
Proof. unfold get_favicon. grows. Qed.

Lemma grows_maybe_get_icon : grows maybe_get_icon.
Proof. unfold maybe_get_icon. grows; apply grows_get_favicon. Qed.

Lemma urlopen_bind_requests {A} request (k : Response → M A) s :
  (∀ response, grows (k response)) →
  ∃ rest, requests (world ((urlopen request ≫= k) s).2) =
          requests (world s) ++ request :: rest.
Proof.
  intros Hk. unfold mbind, M_bind, urlopen at 1.
  destruct (urlopen_outcome _ _) as [response|e]; simpl.
  - destruct (Hk response (sent request s)) as [rest Hrest].
    exists rest. unfold sent, urlopen in Hrest. simpl in Hrest.
    by rewrite Hrest, <- app_assoc.
  - by exists [].
Qed.

(** *** Stepping through a run *)

Lemma new_Request_ok url s :
  Request_error url = None →
  new_Request url s = (Return {| full_url := url; headers := ∅ |}, s).
Proof. intros Hreq. unfold new_Request. by rewrite Hreq. Qed.

Lemma new_Request_error url e s :
  Request_error url = Some e → new_Request url s = (Raise e, s).
Proof. intros Hreq. unfold new_Request. by rewrite Hreq. Qed.

Lemma urlopen_Return request response s :
  urlopen_outcome (requests (world s)) request = Return response →
  urlopen request s = (Return response, sent request s).
Proof. intros Hopen. unfold sent, urlopen. simpl. by rewrite Hopen. Qed.

Lemma urlopen_Raise request e s :
  urlopen_outcome (requests (world s)) request = Raise e →
  urlopen request s = (Raise e, sent request s).
Proof. intros Hopen. unfold sent, urlopen. simpl. by rewrite Hopen. Qed.

Lemma sent_requests request s :
  requests (world (sent request s)) = requests (world s) ++ [request].
Proof. done. Qed.

Lemma sent_self request s : self (sent request s) = self s.
Proof. done. Qed.

Lemma with_icon_same s v : site_icon (self s) = v → with_icon v s = s.
Proof. intros Hv. unfold with_icon. by rewrite set_site_icon_same. Qed.

Lemma getitem_Raise found key e :
  getitem found key = Raise e → (∃ m, e = TypeError m) ∨ e = KeyError key.
Proof.
  unfold getitem. destruct found as [[name rel attrs contents|text]|].
  - destruct (attrs !! key); [done|]. intros [= <-]. by right.
  - intros [= <-]. left. by eexists.
  - intros [= <-]. left. by eexists.
Qed.

(** The two assignments of lines 180 to 182, seen as one function. *)
Lemma resolve_icon_url_steps {A} base href target (k : string → M A) s :
  resolve_icon_url base href = Return target →
  (lift (urllib_parse.urlsplit href "") ≫= λ split_url,
     (if negb (str_bool (urllib_parse.netloc split_url))
      then lift (urllib_parse.urljoin base (urllib_parse.quote href))
      else mret href) ≫= k) s = k target s.
Proof.
  unfold resolve_icon_url, lift, mbind at 1, result_bind, mbind, M_bind.
  destruct (urllib_parse.urlsplit href "") as [split_url|e]; [|done].
  destruct (negb (str_bool (urllib_parse.netloc split_url))).
  - by intros ->.
  - by intros [= ->].
Qed.

Lemma resolve_icon_url_Raise {A} base href e (k : string → M A) s :
  resolve_icon_url base href = Raise e →
  (lift (urllib_parse.urlsplit href "") ≫= λ split_url,
     (if negb (str_bool (urllib_parse.netloc split_url))
      then lift (urllib_parse.urljoin base (urllib_parse.quote href))
      else mret href) ≫= k) s = (Raise e, s).
Proof.
  unfold resolve_icon_url, lift, mbind at 1, result_bind, mbind, M_bind.
  destruct (urllib_parse.urlsplit href "") as [split_url|e']; [|by intros [= ->]].
  destruct (negb (str_bool (urllib_parse.netloc split_url))).
  - by intros ->.
  - done.
Qed.

(** One step of a run: the first computation of a bind returns (by
    computation, or by the lemma given) or raises. *)
Ltac step := erewrite bind_Return by done; cbv beta zeta.
Ltac step_Return lem := erewrite bind_Return by (by apply lem); cbv beta zeta.
Ltac step_Raise lem := erewrite bind_Raise by (by apply lem); cbv beta zeta.

(** *** The cases of [get_favicon] *)

Section favicon.
Variables (s : Store) (ico_url : string).
Hypothesis Hicon : site_icon (self s) = None.
Hypothesis Hqt : with_pyqt = true.
Hypothesis Hjoin :
  urllib_parse.urljoin (icon_url (self s)) "/favicon.ico" = Return ico_url.
Hypothesis Hreq : Request_error ico_url = None.

Local Abbreviation ico_request := (agent_request (user_agent (self s)) ico_url).

Ltac favicon_prefix :=
  unfold get_favicon;
  step;
  rewrite Hicon; cbn [icon_bool]; rewrite Hqt; cbn [negb];
  erewrite (bind_Return (lift _)) by (unfold lift; by rewrite Hjoin);
  cbv beta zeta;
  step_Return new_Request_ok;
  fold (agent_request (user_agent (self s)) ico_url).

Lemma get_favicon_raises e :
  urlopen_outcome (requests (world s)) ico_request = Raise e →
  get_favicon s = (Raise e, sent ico_request s).
Proof. intros Hopen. favicon_prefix. by step_Raise urlopen_Raise. Qed.

Lemma get_favicon_status response :
  urlopen_outcome (requests (world s)) ico_request = Return response →
  code response ≠ 200%Z →
  get_favicon s = (Return (), sent ico_request s).
Proof.
  intros Hopen Hcode. favicon_prefix. step_Return urlopen_Return.
  apply Z.eqb_neq in Hcode. rewrite Hcode. cbn [negb].
  by apply set_site_icon_same.
Qed.

Lemma get_favicon_stored response :
  urlopen_outcome (requests (world s)) ico_request = Return response →
  code response = 200%Z →
  get_favicon s =
  (Return (),
   with_icon (Some (fitted_icon (max_icon_size (self s)) (body response)))
     (sent ico_request s)).
Proof.
  intros Hopen Hcode. favicon_prefix. step_Return urlopen_Return.
  rewrite Hcode. cbn [Z.eqb Pos.eqb negb].
  step. unfold fitted_icon. cbv zeta.
  by destruct (_ || _).
Qed.

(** With PyQt and no stored icon, [get_favicon] sends exactly one
    request, for the path [/favicon.ico] joined to [icon_url]. *)
Lemma get_favicon_requests :
  requests (world (get_favicon s).2) = requests (world s) ++ [ico_request].
Proof.
  destruct (urlopen_outcome (requests (world s)) ico_request)
    as [response|e] eqn:Hopen.
  - destruct (decide (code response = 200%Z)) as [Hcode|Hcode].
    + by rewrite (get_favicon_stored response).
    + by rewrite (get_favicon_status response).
  - by rewrite (get_favicon_raises e).
Qed.

End favicon.

(** *** The cases of [maybe_get_icon] *)

Section unfetched.
Variable s : Store.
Hypothesis Hicon : site_icon (self s) = None.
Hypothesis Hqt : with_pyqt = true.
Hypothesis Hreq : Request_error (icon_url (self s)) = None.

Local Abbreviation page_request :=
  (agent_request (user_agent (self s)) (icon_url (self s))).

Ltac icon_prefix :=
  unfold maybe_get_icon;
  step;
  rewrite Hicon; cbn [icon_bool]; rewrite Hqt; cbn [negb];
  step_Return new_Request_ok;
  fold (agent_request (user_agent (self s)) (icon_url (self s))).

Lemma maybe_get_icon_page_raises e :
  urlopen_outcome (requests (world s)) page_request = Raise e →
  maybe_get_icon s = (Raise e, sent page_request s).
Proof. intros Hopen. icon_prefix. by step_Raise urlopen_Raise. Qed.

Lemma maybe_get_icon_page_status page_response :
  urlopen_outcome (requests (world s)) page_request = Return page_response →
  code page_response ≠ 200%Z →
  maybe_get_icon s = get_favicon (sent page_request s).
Proof.
  intros Hopen Hcode. icon_prefix. step_Return urlopen_Return.
  apply Z.eqb_neq in Hcode. by rewrite Hcode.
Qed.

(** Without a stored icon the page is asked for, whatever earlier calls
    did. *)
Lemma maybe_get_icon_asks_page :
  ∃ rest, requests (world (maybe_get_icon s).2) =
          requests (world s) ++ page_request :: rest.
Proof.
  icon_prefix. apply urlopen_bind_requests. intros page_response.
  grows; apply grows_get_favicon.
Qed.

Section page_loaded.
Variable page_response : Response.
Hypothesis Hpage :
  urlopen_outcome (requests (world s)) page_request = Return page_response.
Hypothesis Hcode : code page_response = 200%Z.

Ltac page_prefix :=
  icon_prefix; step_Return urlopen_Return;
  rewrite Hcode; cbn [Z.eqb Pos.eqb negb].

Lemma maybe_get_icon_no_icon_link e :
  getitem (find (soup (body page_response)) "link" "icon") "href" = Raise e →
  maybe_get_icon s = get_favicon (sent page_request s).
Proof.
  intros Hlink. page_prefix. rewrite Hlink.
  by destruct (getitem_Raise _ _ _ Hlink) as [[m ->]| ->].
Qed.

Section icon_link.
Variables href target : string.
Hypothesis Hlink :
  getitem (find (soup (body page_response)) "link" "icon") "href" = Return href.

Lemma maybe_get_icon_link_invalid e :
  resolve_icon_url (url (self s)) href = Raise e →
  maybe_get_icon s = (Raise e, sent page_request s).
Proof.
  intros Hbad. page_prefix. rewrite Hlink.
  by erewrite resolve_icon_url_Raise.
Qed.

Hypothesis Htarget : resolve_icon_url (url (self s)) href = Return target.

Local Abbreviation icon_request := (agent_request (user_agent (self s)) target).
Local Abbreviation asked := (sent icon_request (sent page_request s)).

Ltac link_prefix :=
  page_prefix; rewrite Hlink;
  erewrite resolve_icon_url_steps by done.

Lemma maybe_get_icon_link_rejected e :
  Request_error target = Some e →
  maybe_get_icon s =
  (if is_URLError e then Return () else Raise e, sent page_request s).
Proof.
  intros Hreq2. link_prefix. unfold try_except at 1.
  unfold mbind at 1, M_bind at 1.
  step_Raise new_Request_error. unfold DEBUG. by destruct (is_URLError e).
Qed.

Hypothesis Hreq2 : Request_error target = None.

Ltac request_prefix :=
  link_prefix; unfold try_except at 1; unfold mbind at 1, M_bind at 1;
  step_Return new_Request_ok;
  fold (agent_request (user_agent (self s)) target).

Lemma maybe_get_icon_icon_raises ex :
  urlopen_outcome (requests (world s) ++ [page_request]) icon_request
  = Raise ex →
  maybe_get_icon s = (if is_URLError ex then Return () else Raise ex, asked).
Proof.
  intros Hopen. request_prefix.
  step_Raise urlopen_Raise. unfold DEBUG. by destruct (is_URLError ex).
Qed.

Lemma maybe_get_icon_icon_status icon_response :
  urlopen_outcome (requests (world s) ++ [page_request]) icon_request
  = Return icon_response →
  code icon_response ≠ 200%Z →
  maybe_get_icon s = (Return (), asked).
Proof.
  intros Hopen Hcode2. request_prefix.
  step_Return urlopen_Return.
  apply Z.eqb_neq in Hcode2. rewrite Hcode2. cbn [negb].
  erewrite (bind_Return (set_site_icon None)) by (by apply set_site_icon_same).
  done.
Qed.

Lemma maybe_get_icon_icon_stored icon_response :
  urlopen_outcome (requests (world s) ++ [page_request]) icon_request
  = Return icon_response →
  code icon_response = 200%Z →
  maybe_get_icon s =
  (Return (),
   with_icon
     (Some (fitted_icon (max_icon_size (self s)) (body icon_response))) asked).
Proof.
  intros Hopen Hcode2. request_prefix.
  step_Return urlopen_Return.
  rewrite Hcode2. cbn [Z.eqb Pos.eqb negb]. cbn [mret M_ret].
  step. unfold fitted_icon. cbv zeta.
  by destruct (_ || _).
Qed.


End icon_link.
End page_loaded.
End unfetched.

(** *** The icon cache *)

(** C1 (amended).  Only a stored image is remembered.  With an image
    stored, [maybe_get_icon] sends no request and changes nothing.  The
    value 'none' is not remembered as an outcome: while the icon is
    'none', also after an attempt that failed, a call with PyQt
    available (and a page URL that [Request] accepts) asks for the page
    again. *)
Theorem icon_remembered_only_when_stored s :
  (∀ image, site_icon (self s) = Some image →
            maybe_get_icon s = (Return (), s)) ∧
  (site_icon (self s) = None → with_pyqt = true →
   Request_error (icon_url (self s)) = None →
   ∃ rest, requests (world (maybe_get_icon s).2) =
           requests (world s)
           ++ agent_request (user_agent (self s)) (icon_url (self s)) :: rest).
Proof.
  split.
  - apply maybe_get_icon_cached.
  - apply maybe_get_icon_asks_page.
Qed.

(** *** Errors during icon retrieval *)

(** C3 (amended).  Without a stored icon and with PyQt available, when
    [urlopen] returns a response for the page:
    - a response returned with a status other than 200 (one that
      [urlopen] hands back, such as 204; for a 404 it raises
      [HTTPError]), and a parse error on a page with status 200 (no
      icon link, or a link without [href]), are not raised to the
      caller: the call goes on exactly as [get_favicon], whose outcome
      decides the icon;
    - for an icon link, a [URLError] that [urlopen] raises for the
      resolved address ([HTTPError], as for a 404, is one), and a
      response it returns with a status other than 200, are not raised
      to the caller either: the call returns normally and the icon is
      'none'.
    In [get_favicon], a response that [urlopen] returns for the favicon
    with a status other than 200 ends the call normally with the icon
    'none'.  The statement says nothing of what [urlopen] raises for
    the page or for the favicon. *)
Theorem icon_errors_swallowed s :
  site_icon (self s) = None → with_pyqt = true →
  (∀ page_response,
     Request_error (icon_url (self s)) = None →
     urlopen_outcome (requests (world s))
       (agent_request (user_agent (self s)) (icon_url (self s)))
     = Return page_response →
     (code page_response ≠ 200%Z →
      maybe_get_icon s =
      get_favicon
        (sent (agent_request (user_agent (self s)) (icon_url (self s))) s)) ∧
     (code page_response = 200%Z →
      (∀ e, getitem (find (soup (body page_response)) "link" "icon") "href"
            = Raise e →
            maybe_get_icon s =
            get_favicon
              (sent (agent_request (user_agent (self s)) (icon_url (self s)))
                 s)) ∧
      (∀ href target,
         getitem (find (soup (body page_response)) "link" "icon") "href"
         = Return href →
         resolve_icon_url (url (self s)) href = Return target →
         Request_error target = None →
         (∀ ex,
            urlopen_outcome
              (requests (world s)
               ++ [agent_request (user_agent (self s)) (icon_url (self s))])
              (agent_request (user_agent (self s)) target) = Raise ex →
            is_URLError ex = true →
            (maybe_get_icon s).1 = Return () ∧
            site_icon (self (maybe_get_icon s).2) = None) ∧
         (∀ icon_response,
            urlopen_outcome
              (requests (world s)
               ++ [agent_request (user_agent (self s)) (icon_url (self s))])
              (agent_request (user_agent (self s)) target)
            = Return icon_response →
            code icon_response ≠ 200%Z →
            (maybe_get_icon s).1 = Return () ∧
            site_icon (self (maybe_get_icon s).2) = None)))) ∧
  (∀ ico_url ico_response,
     urllib_parse.urljoin (icon_url (self s)) "/favicon.ico" = Return ico_url →
     Request_error ico_url = None →
     urlopen_outcome (requests (world s))
       (agent_request (user_agent (self s)) ico_url) = Return ico_response →
     code ico_response ≠ 200%Z →
     (get_favicon s).1 = Return () ∧
     site_icon (self (get_favicon s).2) = None).
Proof.
  intros Hicon Hqt. split.
  - intros page_response Hreq Hpage. split.
    + intros Hcode. by eapply maybe_get_icon_page_status.
    + intros Hcode. split.
      * intros e Hlink. by eapply maybe_get_icon_no_icon_link.
      * intros href target Hlink Htarget Hreq2. split.
        -- intros ex Hopen Hurl.
           erewrite maybe_get_icon_icon_raises by done. by rewrite Hurl.
        -- intros icon_response Hopen Hcode2.
           by erewrite maybe_get_icon_icon_status.
  - intros ico_url ico_response Hjoin Hreq Hopen Hcode.
    by erewrite get_favicon_status.
Qed.

(** *** Relative icon links *)


(** *** The favicon fallback *)

(** When the page answers with a status other than 200, or with a page
    that has no icon link with an [href], the call goes on as
    [get_favicon], which asks for [/favicon.ico] joined to [icon_url]. *)
Lemma favicon_fallback s page_response ico_url :
  site_icon (self s) = None → with_pyqt = true →
  Request_error (icon_url (self s)) = None →
  urlopen_outcome (requests (world s))
    (agent_request (user_agent (self s)) (icon_url (self s)))
  = Return page_response →
  code page_response ≠ 200%Z
  ∨ (∃ e, getitem (find (soup (body page_response)) "link" "icon") "href"
          = Raise e) →
  urllib_parse.urljoin (icon_url (self s)) "/favicon.ico" = Return ico_url →
  Request_error ico_url = None →
  maybe_get_icon s =
  get_favicon
    (sent (agent_request (user_agent (self s)) (icon_url (self s))) s) ∧
  requests (world (maybe_get_icon s).2) =
  requests (world s)
  ++ [agent_request (user_agent (self s)) (icon_url (self s));
      agent_request (user_agent (self s)) ico_url].
Proof.
  intros Hicon Hqt Hreq Hpage Hcase Hjoin Hreq2.
  assert (maybe_get_icon s =
          get_favicon
            (sent (agent_request (user_agent (self s)) (icon_url (self s))) s))
    as Hfall.
  { destruct (decide (code page_response = 200%Z)) as [Hcode|Hcode].
    - destruct Hcase as [?|[e Hlink]]; [done|].
      by eapply maybe_get_icon_no_icon_link.
    - by eapply maybe_get_icon_page_status. }
  split; [done|]. rewrite Hfall.
  rewrite (get_favicon_requests _ ico_url) by done.
  simpl. by rewrite <- app_assoc.
Qed.

(** *** The raw fetch helper *)

Lemma str_app_assoc (a b c : string) : (a +:+ b) +:+ c = a +:+ (b +:+ c).
Proof.
  induction a as [|x a IH]; [done|].
  change (String x ((a +:+ b) +:+ c) = String x (a +:+ (b +:+ c))).
  by f_equal.
Qed.

Lemma contains_prefix (a b : string) : contains a (a +:+ b).
Proof. by exists "", b. Qed.

Lemma contains_suffix (a b : string) : contains b (a +:+ b).
Proof.
  exists a, "". f_equal. induction b as [|x b IH]; [done|].
  change (String x b = String x (b +:+ "")). by f_equal.
Qed.

(** C2.  For every URL that [Request] accepts, [get_data_from_url]
    hands to [urlopen] a request for the URL that carries the user agent
    of the downloader.  When the response has a status other than 200 the
    call raises a [ValueError] whose message is the status code, a colon
    and a space, and the reason phrase, so that a 404 gives a message
    that contains "404"; when the status is 200 the call returns the body
    of the response.  An exception of [Request] or of [urlopen] is
    raised to the caller as it is. *)
Theorem get_data_from_url_outcome url_in s :
  let request :=
    add_header "User-agent" (user_agent (self s))
      {| full_url := url_in; headers := ∅ |} in
  headers request !! "User-agent" = Some (user_agent (self s)) ∧
  (∀ e, Request_error url_in = Some e →
        get_data_from_url url_in s = (Raise e, s)) ∧
  (Request_error url_in = None →
   requests (world (get_data_from_url url_in s).2) =
   requests (world s) ++ [request] ∧
   (∀ e, urlopen_outcome (requests (world s)) request = Raise e →
         (get_data_from_url url_in s).1 = Raise e) ∧
   (∀ response,
      urlopen_outcome (requests (world s)) request = Return response →
      let message := str_int (code response) +:+ ": " +:+ msg response in
      (code response ≠ 200%Z →
       (get_data_from_url url_in s).1 = Raise (ValueError message) ∧
       contains (str_int (code response)) message ∧
       contains (msg response) message ∧
       (code response = 404%Z → contains "404" message)) ∧
      (code response = 200%Z →
       (get_data_from_url url_in s).1 = Return (body response)))).
Proof.
  intros request. split; [apply lookup_insert_eq|]. split.
  - intros e Hreq. unfold get_data_from_url. step.
    by step_Raise new_Request_error.
  - intros Hreq.
    assert (get_data_from_url url_in s =
            (match urlopen_outcome (requests (world s)) request with
             | Return response =>
                 if negb (code response =? 200)%Z
                 then Raise (ValueError (str_int (code response) +:+ ": "
                                         +:+ msg response))
                 else Return (body response)
             | Raise e => Raise e
             end, sent request s)) as Hrun.
    { unfold get_data_from_url. step.
      step_Return new_Request_ok. fold request.
      destruct (urlopen_outcome (requests (world s)) request)
        as [response|e] eqn:Hopen.
      - step_Return urlopen_Return. by destruct (negb _).
      - by step_Raise urlopen_Raise. }
    rewrite Hrun. split_and!.
    + done.
    + by intros e ->.
    + intros response -> message. simpl. split.
      * intros Hcode. apply Z.eqb_neq in Hcode. rewrite Hcode. split_and!.
        -- done.
        -- apply contains_prefix.
        -- unfold message. rewrite <- str_app_assoc. apply contains_suffix.
        -- intros Hcode'. unfold message. rewrite Hcode'.
           apply contains_prefix.
      * intros Hcode. by rewrite Hcode.
Qed.

(** *** Temporary file names *)

(** One round of the loop of [_mkstemp_inner]. *)
Lemma _mkstemp_inner_taken n dir pre suf s :
  os_path_join dir (pre +:+ candidate_name (names_drawn (world s)) +:+ suf)
  ∈ files (world s) →
  _mkstemp_inner (S n) dir pre suf s =
  _mkstemp_inner n dir pre suf (next_candidate_name s).2.
Proof.
  intros Hin. simpl. step.
  unfold try_except at 1, mbind at 1, M_bind at 1.
  unfold mbind at 1, M_bind at 1, os_open_excl at 1. simpl.
  by rewrite decide_True.
Qed.

Lemma _mkstemp_inner_free n dir pre suf s :
  os_path_join dir (pre +:+ candidate_name (names_drawn (world s)) +:+ suf)
  ∉ files (world s) →
  _mkstemp_inner (S n) dir pre suf s =
  (Return (os_path_join dir
             (pre +:+ candidate_name (names_drawn (world s)) +:+ suf)),
   (os_open_excl
      (os_path_join dir
         (pre +:+ candidate_name (names_drawn (world s)) +:+ suf))
      (next_candidate_name s).2).2).
Proof.
  intros Hout. simpl. step.
  unfold try_except at 1, mbind at 1, M_bind at 1.
  unfold mbind at 1, M_bind at 1, os_open_excl. simpl.
  by rewrite !decide_False.
Qed.

(** A name that is returned was drawn, did not exist before and exists
    afterwards; nothing else changes but the number of names drawn. *)
Lemma _mkstemp_inner_Return n dir pre suf s p s' :
  _mkstemp_inner n dir pre suf s = (Return p, s') →
  (∃ name, p = os_path_join dir (pre +:+ name +:+ suf)) ∧
  (p ∉ files (world s)) ∧
  files (world s') = {[p]} ∪ files (world s) ∧
  self s' = self s ∧
  requests (world s') = requests (world s).
Proof.
  revert s. induction n as [|n IH]; intros s; [done|].
  destruct (decide (os_path_join dir
      (pre +:+ candidate_name (names_drawn (world s)) +:+ suf)
      ∈ files (world s))) as [Hin|Hout].
  - rewrite _mkstemp_inner_taken by done. intros Hrun.
    by apply IH in Hrun.
  - rewrite _mkstemp_inner_free by done. intros [= <- <-].
    unfold os_open_excl. simpl. rewrite decide_False by done. simpl.
    split_and!; try done. by eexists.
Qed.

(** A free name among the next [n] candidates makes the loop return. *)
Lemma _mkstemp_inner_returns n dir pre suf s :
  (∃ k, k < n ∧
        os_path_join dir
          (pre +:+ candidate_name (names_drawn (world s) + k) +:+ suf)
        ∉ files (world s)) →
  ∃ p s', _mkstemp_inner n dir pre suf s = (Return p, s').
Proof.
  revert s. induction n as [|n IH]; intros s [k [Hk Hfree]]; [lia|].
  destruct (decide (os_path_join dir
      (pre +:+ candidate_name (names_drawn (world s)) +:+ suf)
      ∈ files (world s))) as [Hin|Hout].
  - rewrite _mkstemp_inner_taken by done. apply IH.
    destruct k as [|k]; [by rewrite Nat.add_0_r in Hfree|].
    exists k. split; [lia|].
    replace (names_drawn (world s) + S k)
      with (S (names_drawn (world s) + k)) in Hfree by lia.
    done.
  - rewrite _mkstemp_inner_free by done. by eexists _, _.
Qed.

Lemma os_path_join_suffix a stem suf :
  ∃ front, os_path_join a ("tmp" +:+ stem +:+ suf) = front +:+ suf.
Proof.
  unfold os_path_join.
  change (Str.starts_with "/" ("tmp" +:+ stem +:+ suf)) with false.
  cbv iota. destruct (_ || _).
  - exists (a +:+ "tmp" +:+ stem). by rewrite !str_app_assoc.
  - exists (a +:+ "/" +:+ "tmp" +:+ stem). by rewrite !str_app_assoc.
Qed.

Lemma get_file_name_temp_Return s p q s1 :
  use_temp_files (self s) = true →
  get_file_name s = (Return (p, q), s1) →
  q = p ∧
  is_temp_path (file_extension (self s)) p ∧
  (p ∉ files (world s)) ∧
  files (world s1) = {[p]} ∪ files (world s) ∧
  self s1 = self s ∧
  requests (world s1) = requests (world s).
Proof.
  intros Htemp. unfold get_file_name. step. rewrite Htemp.
  unfold mbind, M_bind, NamedTemporaryFile.
  destruct (_mkstemp_inner _ _ _ _ s) as [[p'|e] s'] eqn:Hrun; [|done].
  intros [= <- <- <-].
  apply _mkstemp_inner_Return in Hrun as (Hname & ? & ? & ? & ?).
  by split_and!.
Qed.

Lemma get_file_name_temp_returns s :
  use_temp_files (self s) = true →
  has_free_name (file_extension (self s)) (world s) →
  ∃ p s1, get_file_name s = (Return (p, p), s1).
Proof.
  intros Htemp Hfree.
  destruct (_mkstemp_inner_returns TMP_MAX tempdir "tmp"
              (file_extension (self s)) s Hfree) as (p & s1 & Hrun).
  exists p, s1. unfold get_file_name. step. rewrite Htemp.
  unfold NamedTemporaryFile. by step.
Qed.

(** C9.  With [use_temp_files] set, and a free name among the next
    [TMP_MAX] candidates, [get_file_name] returns a pair whose two
    components are the same path.  The path is a new name in the
    temporary directory that ends with the file extension of the
    downloader; the file did not exist before and exists afterwards.
    A second call does not return that path again: if it returns, it
    returns another path, and it does return when a free name is left. *)
Theorem get_file_name_temp s :
  use_temp_files (self s) = true →
  has_free_name (file_extension (self s)) (world s) →
  ∃ p s1,
    get_file_name s = (Return (p, p), s1) ∧
    is_temp_path (file_extension (self s)) p ∧
    (∃ front, p = front +:+ file_extension (self s)) ∧
    (p ∉ files (world s)) ∧ (p ∈ files (world s1)) ∧
    (∀ p' q' s2, get_file_name s1 = (Return (p', q'), s2) → p' ≠ p) ∧
    (has_free_name (file_extension (self s)) (world s1) →
     ∃ p' s2, get_file_name s1 = (Return (p', p'), s2) ∧ p' ≠ p).
Proof.
  intros Htemp Hfree.
  destruct (get_file_name_temp_returns s Htemp Hfree) as (p & s1 & Hrun).
  destruct (get_file_name_temp_Return s p p s1 Htemp Hrun)
    as (_ & Hpath & Hnew & Hfiles & Hself & _).
  assert (p ∈ files (world s1)) as Hin.
  { rewrite Hfiles. apply elem_of_union. left. by apply elem_of_singleton. }
  assert (∀ p' q' s2, get_file_name s1 = (Return (p', q'), s2) → p' ≠ p)
    as Hother.
  { intros p' q' s2 Hrun2 ->.
    apply get_file_name_temp_Return in Hrun2 as (_ & _ & Hnew2 & _);
      [done | by rewrite Hself]. }
  exists p, s1. split_and!; try done.
  - destruct Hpath as [name ->]. apply os_path_join_suffix.
  - intros Hfree2.
    destruct (get_file_name_temp_returns s1) as (p' & s2 & Hrun2);
      [by rewrite Hself | by rewrite Hself |].
    exists p', s2. split; [done | by eapply Hother].
Qed.

End downloader_facts.

(** ** The methods on the concrete runtime *)

Section runs.
Import Demo.

(** C1, counterexample.  The page declares an icon whose address
    answers with a status other than 200 (404 on the first site, 204 on
    the second), so the first call sets the icon to 'none'.  The second
    call does not remember this: it sends the page request and the icon
    request again. *)
Lemma failed_icon_is_fetched_again :
  (let R := runtime true site_icon_missing in
   let s0 := start R false in
   let s1 := (maybe_get_icon s0).2 in
   let s2 := (maybe_get_icon s1).2 in
   urlopen_outcome [page_request] icon_request = not_found ∧
   (maybe_get_icon s0).1 = Return () ∧
   site_icon (self s1) = None ∧
   requests (world s1) = [page_request; icon_request] ∧
   requests (world s2) =
   [page_request; icon_request; page_request; icon_request] ∧
   requests (world s2) ≠ requests (world s1)) ∧
  (let R := runtime true site_icon_empty in
   let s0 := start R false in
   let s1 := (maybe_get_icon s0).2 in
   let s2 := (maybe_get_icon s1).2 in
   urlopen_outcome [page_request] icon_request = no_content ∧
   (maybe_get_icon s0).1 = Return () ∧
   site_icon (self s1) = None ∧
   requests (world s1) = [page_request; icon_request] ∧
   requests (world s2) =
   [page_request; icon_request; page_request; icon_request] ∧
   requests (world s2) ≠ requests (world s1)).
Proof. vm_compute. by split_and!. Qed.

Lemma icon_remembered_only_when_stored_witness :
  let R := runtime true site_icon_missing in
  let s1 := (maybe_get_icon (start R false)).2 in
  site_icon (self s1) = None ∧
  ∃ rest, requests (world (maybe_get_icon s1).2) =
          requests (world s1) ++ page_request :: rest.
Proof.
  intros R s1. split; [reflexivity|].
  apply (@icon_remembered_only_when_stored R s1); reflexivity.
Defined.

(** C3, counterexample.  On a page without an icon link the lookup of
    [href] raises a [TypeError]; the call then stores the favicon, so the
    icon is not 'none'.  On a site that cannot be reached the [URLError]
    of the page request is raised to the caller. *)
Lemma icon_errors_not_all_swallowed :
  let R1 := runtime true site_favicon_only in
  let R2 := runtime true site_down in
  getitem (find (@soup R1 page_without_icon) "link" "icon") "href"
  = Raise (TypeError "'NoneType' object is not subscriptable") ∧
  (maybe_get_icon (start R1 false)).1 = Return () ∧
  site_icon (self (maybe_get_icon (start R1 false)).2)
  = Some (fromData icon_data) ∧
  (maybe_get_icon (start R2 false)).1
  = Raise (URLError "[Errno -2] Name or service not known").
Proof. vm_compute. by split_and!. Qed.

Lemma icon_errors_swallowed_witness :
  (let R := runtime true Fixtures.site_page_empty in
   maybe_get_icon (start R false) =
   get_favicon (sent page_request (start R false))) ∧
  (let R := runtime true site_favicon_only in
   maybe_get_icon (start R false) =
   get_favicon (sent page_request (start R false))) ∧
  (let R := runtime true site_icon_unreachable in
   (maybe_get_icon (start R false)).1 = Return () ∧
   site_icon (self (maybe_get_icon (start R false)).2) = None) ∧
  (let R := runtime true Fixtures.site_icon_http_error in
   (maybe_get_icon (start R false)).1 = Return () ∧
   site_icon (self (maybe_get_icon (start R false)).2) = None) ∧
  (let R := runtime true site_icon_empty in
   (maybe_get_icon (start R false)).1 = Return () ∧
   site_icon (self (maybe_get_icon (start R false)).2) = None) ∧
  (let R := runtime true Fixtures.site_favicon_empty in
   (get_favicon (start R false)).1 = Return () ∧
   site_icon (self (get_favicon (start R false)).2) = None).
Proof.
  split_and!.
  - intros R.
    destruct (@icon_errors_swallowed R (start R false) eq_refl eq_refl)
      as [Hpage _].
    destruct (Hpage {| code := 204; msg := "No Content"; body := [] |}
                eq_refl eq_refl) as [Hstatus _].
    apply Hstatus. discriminate.
  - intros R.
    destruct (@icon_errors_swallowed R (start R false) eq_refl eq_refl)
      as [Hpage _].
    destruct (Hpage {| code := 200; msg := "OK"; body := page_without_icon |}
                eq_refl eq_refl) as [_ Hloaded].
    destruct (Hloaded eq_refl) as [Hparse _].
    apply (Hparse (TypeError "'NoneType' object is not subscriptable")).
    reflexivity.
  - intros R.
    destruct (@icon_errors_swallowed R (start R false) eq_refl eq_refl)
      as [Hpage _].
    destruct (Hpage {| code := 200; msg := "OK"; body := page_with_icon |}
                eq_refl eq_refl) as [_ Hloaded].
    destruct (Hloaded eq_refl) as [_ Hlink].
    destruct (Hlink "/icons/a.png" icon_link_url eq_refl eq_refl eq_refl)
      as [Hraise _].
    apply (Hraise (URLError "[Errno -2] Name or service not known"));
      reflexivity.
  - intros R.
    destruct (@icon_errors_swallowed R (start R false) eq_refl eq_refl)
      as [Hpage _].
    destruct (Hpage {| code := 200; msg := "OK"; body := page_with_icon |}
                eq_refl eq_refl) as [_ Hloaded].
    destruct (Hloaded eq_refl) as [_ Hlink].
    destruct (Hlink "/icons/a.png" icon_link_url eq_refl eq_refl eq_refl)
      as [Hraise _].
    apply (Hraise (HTTPError 404 "Not Found")); reflexivity.
  - intros R.
    destruct (@icon_errors_swallowed R (start R false) eq_refl eq_refl)
      as [Hpage _].
    destruct (Hpage {| code := 200; msg := "OK"; body := page_with_icon |}
                eq_refl eq_refl) as [_ Hloaded].
    destruct (Hloaded eq_refl) as [_ Hlink].
    destruct (Hlink "/icons/a.png" icon_link_url eq_refl eq_refl eq_refl)
      as [_ Hstatus].
    apply (Hstatus {| code := 204; msg := "No Content"; body := [] |});
      [reflexivity | discriminate].
  - intros R.
    destruct (@icon_errors_swallowed R (start R false) eq_refl eq_refl)
      as [_ Hfav].
    apply (Hfav favicon_url
             {| code := 204; msg := "No Content"; body := [] |});
      [reflexivity | reflexivity | reflexivity | discriminate].
Defined.



(** C6, the failing input.  When the site cannot be reached, [urlopen]
    raises a [URLError] for the page request.  The call raises it to the
    caller after that single request; [/favicon.ico] is never asked for. *)
Theorem page_load_error_skips_favicon :
  let R := runtime true site_down in
  let s := start R false in
  urlopen_outcome (requests (world s)) page_request
  = Raise (URLError "[Errno -2] Name or service not known") ∧
  maybe_get_icon s =
  (Raise (URLError "[Errno -2] Name or service not known"),
   sent page_request s) ∧
  requests (world (maybe_get_icon s).2) = [page_request] ∧
  favicon_request ∉ requests (world (maybe_get_icon s).2).
Proof.
  intros R s.
  assert (maybe_get_icon s =
          (Raise (URLError "[Errno -2] Name or service not known"),
           sent page_request s)) as Hrun.
  { by apply (@maybe_get_icon_page_raises R s). }
  rewrite Hrun. split_and!; try done.
  intros Hin%list_elem_of_singleton.
  apply (f_equal full_url) in Hin. discriminate.
Qed.

(** On the same downloader, a page that answers 404 does lead to the
    favicon. *)
Example page_status_reaches_favicon :
  let R := runtime true site_page_missing in
  requests (world (maybe_get_icon (start R false)).2)
  = [page_request; favicon_request] ∧
  site_icon (self (maybe_get_icon (start R false)).2)
  = Some (fromData icon_data).
Proof. vm_compute. done. Qed.

Lemma stored_icon_not_fetched_again_witness :
  let R := runtime true site_ok in
  let s1 := (maybe_get_icon (start R false)).2 in
  site_icon (self s1) = Some (fromData icon_data) ∧
  repeat_call 3 maybe_get_icon s1 = (Return (), s1) ∧
  requests (world (repeat_call 3 maybe_get_icon s1).2) = requests (world s1) ∧
  site_icon (self (repeat_call 3 maybe_get_icon s1).2)
  = Some (fromData icon_data).
Proof.
  intros R s1. split; [reflexivity|].
  apply (@stored_icon_not_fetched_again R (start R false) s1
           (fromData icon_data) 3); reflexivity.
Defined.

Lemma icon_methods_without_pyqt_witness :
  let R := runtime false site_ok in
  let s := start R false in
  maybe_get_icon s = (Return (), s) ∧
  get_favicon s = (Return (), s) ∧
  requests (world (maybe_get_icon s).2) = requests (world s) ∧
  requests (world (get_favicon s).2) = requests (world s) ∧
  (site_icon (self s) = None →
   site_icon (self (maybe_get_icon s).2) = None ∧
   site_icon (self (get_favicon s).2) = None).
Proof.
  intros R s. apply (@icon_methods_without_pyqt R s). reflexivity.
Defined.

Lemma get_data_from_url_outcome_witness :
  let R := runtime true site_icon_missing in
  let s := start R false in
  (get_data_from_url icon_link_url s).1 = Raise (ValueError "404: Not Found") ∧
  contains "404" "404: Not Found" ∧
  requests (world (get_data_from_url icon_link_url s).2) = [icon_request].
Proof.
  intros R s.
  destruct (@get_data_from_url_outcome R icon_link_url s)
    as (_ & _ & Haccepted).
  destruct (Haccepted eq_refl) as (Hsent & _ & Hanswer).
  destruct (Hanswer {| code := 404; msg := "Not Found"; body := [] |} eq_refl)
    as [Hbad _].
  destruct Hbad as (Hraise & _ & _ & H404); [done|].
  split_and!; [exact Hraise | by apply H404 | exact Hsent].
Defined.

(** A page that is there is returned as it is. *)
Example get_data_from_url_ok :
  let R := runtime true site_ok in
  (get_data_from_url page_url (start R false)).1 = Return page_with_icon.
Proof. vm_compute. done. Qed.

Lemma get_file_name_temp_witness :
  let R := runtime true site_ok in
  let s := start R true in
  ∃ p s1,
    get_file_name s = (Return (p, p), s1) ∧
    is_temp_path ".wav" p ∧
    (∃ front, p = front +:+ ".wav") ∧
    (p ∉ files (world s)) ∧ (p ∈ files (world s1)) ∧
    (∀ p' q' s2, get_file_name s1 = (Return (p', q'), s2) → p' ≠ p) ∧
    (has_free_name ".wav" (world s1) →
     ∃ p' s2, get_file_name s1 = (Return (p', p'), s2) ∧ p' ≠ p).
Proof.
  intros R s. apply (@get_file_name_temp R s); [reflexivity|].
  exists 0. split; [apply Nat.lt_0_succ | apply not_elem_of_empty].
Defined.

(** The names drawn are ["name0"], ["name0"], ["name1"], ...: the second
    call meets the file of the first and moves on. *)
Example get_file_name_twice :
  let R := runtime true site_ok in
  let r1 := get_file_name (start R true) in
  let r2 := get_file_name r1.2 in
  r1.1 = Return ("/tmp/tmpname0.wav", "/tmp/tmpname0.wav") ∧
  r2.1 = Return ("/tmp/tmpname1.wav", "/tmp/tmpname1.wav") ∧
  names_drawn (world r2.2) = 3.
Proof. vm_compute. done. Qed.

Example uniqify_list_ex :
  uniqify_list [3; 1; 3; 2; 1; 4] = [3; 1; 2; 4].
Proof. reflexivity. Qed.

End runs.

(** * Further properties *)

(** ** Every run of the icon methods is one of the listed cases *)

Section run_facts.
Context `{Runtime}.
Implicit Types (s : Store) (r : result unit * Store).

Lemma get_favicon_bad_url s e :
  site_icon (self s) = None → with_pyqt = true →
  urllib_parse.urljoin (icon_url (self s)) "/favicon.ico" = Raise e →
  get_favicon s = (Raise e, s).
Proof.
  intros Hicon Hqt Hjoin. unfold get_favicon.
  erewrite bind_Return by done. cbv beta.
  rewrite Hicon. cbn [icon_bool]. rewrite Hqt. cbn [negb].
  erewrite bind_Raise; [done|]. unfold lift. by rewrite Hjoin.
Qed.

Lemma get_favicon_rejected s ico_url e :
  site_icon (self s) = None → with_pyqt = true →
  urllib_parse.urljoin (icon_url (self s)) "/favicon.ico" = Return ico_url →
  Request_error ico_url = Some e →
  get_favicon s = (Raise e, s).
Proof.
  intros Hicon Hqt Hjoin Hreq. unfold get_favicon.
  erewrite bind_Return by done. cbv beta.
  rewrite Hicon. cbn [icon_bool]. rewrite Hqt. cbn [negb].
  erewrite (bind_Return (lift _)) by (unfold lift; by rewrite Hjoin).
  cbv beta. erewrite bind_Raise; [done|]. by apply new_Request_error.
Qed.

Lemma maybe_get_icon_page_rejected s e :
  site_icon (self s) = None → with_pyqt = true →
  Request_error (icon_url (self s)) = Some e →
  maybe_get_icon s = (Raise e, s).
Proof.
  intros Hicon Hqt Hreq. unfold maybe_get_icon.
  erewrite bind_Return by done. cbv beta.
  rewrite Hicon. cbn [icon_bool]. rewrite Hqt. cbn [negb].
  erewrite bind_Raise; [done|]. by apply new_Request_error.
Qed.

Lemma get_favicon_run s : favicon_run s (get_favicon s).
Proof.
  destruct (site_icon (self s)) as [image|] eqn:Hicon.
  { rewrite (get_favicon_cached s image Hicon). by eapply favicon_cached. }
  destruct with_pyqt eqn:Hqt; cycle 1.
  { rewrite (get_favicon_without_pyqt s Hqt). by apply favicon_no_pyqt. }
  destruct (urllib_parse.urljoin (icon_url (self s)) "/favicon.ico")
    as [ico_url|e] eqn:Hjoin; cycle 1.
  { rewrite (get_favicon_bad_url s e) by done. by apply favicon_bad_url. }
  eapply favicon_fetch; [done..|].
  destruct (Request_error ico_url) as [e|] eqn:Hreq.
  { rewrite (get_favicon_rejected s ico_url e) by done.
    by apply (fetch_rejected false s ico_url e). }
  destruct (urlopen_outcome (requests (world s))
              (agent_request (user_agent (self s)) ico_url))
    as [response|e] eqn:Hopen.
  - destruct (decide (code response = 200%Z)) as [Hcode|Hcode].
    + rewrite (get_favicon_stored s ico_url) with (response := response)
        by done.
      by apply fetch_stored.
    + rewrite (get_favicon_status s ico_url) with (response := response)
        by done.
      by eapply fetch_status.
  - rewrite (get_favicon_raises s ico_url) with (e := e) by done.
    by apply (fetch_raises false s ico_url e).
Qed.

Lemma maybe_get_icon_run s : icon_run s (maybe_get_icon s).
Proof.
  destruct (site_icon (self s)) as [image|] eqn:Hicon.
  { rewrite (maybe_get_icon_cached s image Hicon). by eapply icon_cached. }
  destruct with_pyqt eqn:Hqt; cycle 1.
  { rewrite (maybe_get_icon_without_pyqt s Hqt). by apply icon_no_pyqt. }
  destruct (Request_error (icon_url (self s))) as [e|] eqn:Hreq.
  { rewrite (maybe_get_icon_page_rejected s e) by done.
    by apply icon_page_rejected. }
  destruct (urlopen_outcome (requests (world s))
              (agent_request (user_agent (self s)) (icon_url (self s))))
    as [page_response|e] eqn:Hpage; cycle 1.
  { rewrite (maybe_get_icon_page_raises s) with (e := e) by done.
    by apply icon_page_raises. }
  destruct (decide (code page_response = 200%Z)) as [Hcode|Hcode]; cycle 1.
  { rewrite (maybe_get_icon_page_status s) with (page_response := page_response)
      by done.
    eapply icon_page_status; [done..|]. apply get_favicon_run. }
  destruct (getitem (find (soup (body page_response)) "link" "icon") "href")
    as [href|e] eqn:Hlink; cycle 1.
  { rewrite (maybe_get_icon_no_icon_link s) with
      (page_response := page_response) (e := e) by done.
    eapply icon_no_link; [done..|]. apply get_favicon_run. }
  destruct (resolve_icon_url (url (self s)) href) as [target|e] eqn:Htarget;
    cycle 1.
  { rewrite (maybe_get_icon_link_invalid s) with
      (page_response := page_response) (href := href) (e := e) by done.
    by eapply icon_link_invalid. }
  eapply icon_link_fetch; [done..|].
  destruct (Request_error target) as [e|] eqn:Hreq2.
  { rewrite (maybe_get_icon_link_rejected s) with
      (page_response := page_response) (href := href) (target := target)
      (e := e) by done.
    exact (fetch_rejected true
             (sent (agent_request (user_agent (self s)) (icon_url (self s))) s)
             target e Hreq2). }
  destruct (urlopen_outcome
              (requests (world s)
               ++ [agent_request (user_agent (self s)) (icon_url (self s))])
              (agent_request (user_agent (self s)) target))
    as [icon_response|e] eqn:Hopen.
  - destruct (decide (code icon_response = 200%Z)) as [Hcode2|Hcode2].
    + rewrite (maybe_get_icon_icon_stored s) with
        (page_response := page_response) (href := href) (target := target)
        (icon_response := icon_response) by done.
      exact (fetch_stored true
               (sent (agent_request (user_agent (self s)) (icon_url (self s)))
                  s) target icon_response Hreq2 Hopen Hcode2).
    + rewrite (maybe_get_icon_icon_status s) with
        (page_response := page_response) (href := href) (target := target)
        (icon_response := icon_response) by done.
      exact (fetch_status true
               (sent (agent_request (user_agent (self s)) (icon_url (self s)))
                  s) target icon_response Hreq2 Hopen Hcode2).
  - rewrite (maybe_get_icon_icon_raises s) with
      (page_response := page_response) (href := href) (target := target)
      (ex := e) by done.
    exact (fetch_raises true
             (sent (agent_request (user_agent (self s)) (icon_url (self s))) s)
             target e Hreq2 Hopen).
Qed.

End run_facts.

(** ** What every run of the icon methods keeps *)

Section run_properties.
Context `{Runtime}.
Implicit Types (s : Store) (r : result unit * Store).

Lemma same_config_refl (d : AudioDownloader) : same_config d d.
Proof. by repeat split. Qed.

Lemma icon_frame_refl s : icon_frame s s.
Proof. split; [apply same_config_refl | done]. Qed.

Lemma asked_at_most_refl n s : asked_at_most n s s.
Proof.
  exists []. rewrite app_nil_r. split_and!; [done | simpl; lia | constructor].
Qed.

Lemma agent_request_full_url user_agent url :
  full_url (agent_request user_agent url) = url.
Proof. unfold agent_request. by destruct (str_bool user_agent). Qed.

Lemma asked_at_most_sent n s url :
  asked_at_most (S n) s (sent (agent_request (user_agent (self s)) url) s).
Proof.
  exists [agent_request (user_agent (self s)) url].
  split_and!; [done | simpl; lia |].
  constructor; [|constructor]. by rewrite agent_request_full_url.
Qed.

(** A run that starts after one more agent request. *)
Lemma run_summary_after_sent n s url r :
  run_summary n (sent (agent_request (user_agent (self s)) url) s) r →
  run_summary (S n) s r.
Proof.
  intros (Hframe & (rest & Hrest & Hlen & Hall) & Hicon & Hraise).
  split_and!.
  - done.
  - exists (agent_request (user_agent (self s)) url :: rest).
    split_and!.
    + rewrite Hrest. simpl. by rewrite <- app_assoc.
    + simpl. lia.
    + constructor; [by rewrite agent_request_full_url | done].
  - done.
  - done.
Qed.

Lemma run_summary_unchanged n s : run_summary n s (Return (), s).
Proof.
  split_and!;
    [apply icon_frame_refl | apply asked_at_most_refl | by left | done].
Qed.

Lemma run_summary_raise_unchanged n s e : run_summary n s (Raise e, s).
Proof.
  split_and!;
    [apply icon_frame_refl | apply asked_at_most_refl | by left | done].
Qed.

Lemma run_summary_sent n s url (outcome : result unit) :
  run_summary (S n) s
    (outcome, sent (agent_request (user_agent (self s)) url) s).
Proof.
  split_and!;
    [by repeat split | apply asked_at_most_sent | by left | done].
Qed.

Lemma fetch_run_summary swallow s url r :
  site_icon (self s) = None → fetch_run swallow s url r → run_summary 1 s r.
Proof.
  intros Hicon Hrun.
  destruct Hrun as [e Hreq|e Hreq Hopen|response Hreq Hopen Hcode
                   |response Hreq Hopen Hcode].
  - destruct (swallow && is_URLError e).
    + apply run_summary_unchanged.
    + apply run_summary_raise_unchanged.
  - apply run_summary_sent.
  - apply run_summary_sent.
  - split_and!.
    + by repeat split.
    + apply asked_at_most_sent.
    + right. split; [done|]. by eexists _, _, _.
    + done.
Qed.

Lemma favicon_run_summary s r : favicon_run s r → run_summary 1 s r.
Proof.
  intros [image Hicon|Hicon Hqt|e Hicon Hqt Hjoin|ico_url r' Hicon Hqt Hjoin Hrun].
  - apply run_summary_unchanged.
  - apply run_summary_unchanged.
  - apply run_summary_raise_unchanged.
  - by eapply fetch_run_summary.
Qed.

Lemma icon_run_summary s r : icon_run s r → run_summary 2 s r.
Proof.
  intros [image Hicon|Hicon Hqt|e Hicon Hqt Hreq|e Hicon Hqt Hreq Hpage
         |page_response r' Hicon Hqt Hreq Hpage Hcode Hrun
         |page_response e r' Hicon Hqt Hreq Hpage Hcode Hlink Hrun
         |page_response href e Hicon Hqt Hreq Hpage Hcode Hlink Htarget
         |page_response href target r' Hicon Hqt Hreq Hpage Hcode Hlink
            Htarget Hrun].
  - apply run_summary_unchanged.
  - apply run_summary_unchanged.
  - apply run_summary_raise_unchanged.
  - apply run_summary_sent.
  - apply (run_summary_after_sent 1 s (icon_url (self s))).
    by apply favicon_run_summary.
  - apply (run_summary_after_sent 1 s (icon_url (self s))).
    by apply favicon_run_summary.
  - apply run_summary_sent.
  - apply (run_summary_after_sent 1 s (icon_url (self s))).
    by eapply fetch_run_summary.
Qed.

Lemma maybe_get_icon_summary s : run_summary 2 s (maybe_get_icon s).
Proof. apply icon_run_summary, maybe_get_icon_run. Qed.

Lemma get_favicon_summary s : run_summary 1 s (get_favicon s).
Proof. apply favicon_run_summary, get_favicon_run. Qed.

(** X1.  Whatever the network answers and however the call ends,
    [maybe_get_icon] and [get_favicon] assign no attribute of the
    downloader but [site_icon], show no message, create no file and draw
    no temporary name. *)
Theorem icon_methods_frame s :
  icon_frame s (maybe_get_icon s).2 ∧ icon_frame s (get_favicon s).2.
Proof.
  split.
  - apply (maybe_get_icon_summary s).
  - apply (get_favicon_summary s).
Qed.

(** X2.  A call of [maybe_get_icon] sends at most two requests and a
    call of [get_favicon] at most one; they are added after the earlier
    requests, and each is the request for its URL with the user agent of
    the downloader (without the header when the agent is empty). *)
Theorem icon_methods_requests s :
  asked_at_most 2 s (maybe_get_icon s).2 ∧
  asked_at_most 1 s (get_favicon s).2.
Proof.
  split.
  - apply (maybe_get_icon_summary s).
  - apply (get_favicon_summary s).
Qed.

(** X3.  The icon methods change the icon in one way only: a downloader
    without an icon gets the image decoded (and fitted to
    [max_icon_size]) from the body of the response to the last request
    of the call, and that response had status 200.  In every other run
    the icon is what it was. *)
Theorem icon_only_from_ok_response s :
  icon_from_response s (maybe_get_icon s).2 ∧
  icon_from_response s (get_favicon s).2.
Proof.
  split.
  - apply (maybe_get_icon_summary s).
  - apply (get_favicon_summary s).
Qed.

(** X4.  When [maybe_get_icon] or [get_favicon] raises, the downloader is
    exactly as before the call: no exception leaves a changed icon
    behind. *)
Theorem icon_methods_raise_unchanged s e :
  ((maybe_get_icon s).1 = Raise e → self (maybe_get_icon s).2 = self s) ∧
  ((get_favicon s).1 = Raise e → self (get_favicon s).2 = self s).
Proof.
  split.
  - apply (maybe_get_icon_summary s).
  - apply (get_favicon_summary s).
Qed.

Lemma fitted_icon_fits max_size data :
  (0 < max_size)%Z →
  (∀ image m, (0 < m)%Z →
              (QImage_width (QImage_scaled image m m) ≤ m)%Z ∧
              (QImage_height (QImage_scaled image m m) ≤ m)%Z) →
  (QImage_width (fitted_icon max_size data) ≤ max_size)%Z ∧
  (QImage_height (fitted_icon max_size data) ≤ max_size)%Z.
Proof.
  intros Hmax Hscaled. unfold fitted_icon. cbv zeta.
  destruct (_ || _) eqn:Hlarge; [by apply Hscaled|].
  apply orb_false_iff in Hlarge as [Hw Hh].
  apply Z.ltb_ge in Hw, Hh. done.
Qed.

Lemma icon_fits_run n s r :
  (0 < max_icon_size (self s))%Z →
  (∀ image m, (0 < m)%Z →
              (QImage_width (QImage_scaled image m m) ≤ m)%Z ∧
              (QImage_height (QImage_scaled image m m) ≤ m)%Z) →
  run_summary n s r → icon_fits s → icon_fits r.2.
Proof.
  intros Hpos Hscaled ((Hconfig & _) & _ & Hicon & _) Hfits.
  destruct Hconfig as (_ & _ & _ & _ & _ & _ & _ & Hmax & _).
  unfold icon_fits in *. rewrite Hmax.
  destruct Hicon as [->|(_ & history & request & response & _ & _ & _ & ->)].
  - done.
  - by apply fitted_icon_fits.
Qed.

(** X5.  With a positive [max_icon_size], and an image type for which
    scaling to a square of positive side [m] gives an image at most [m]
    wide and high (as [QImage.scaled] with [Qt.KeepAspectRatio] does),
    the icon methods keep the stored icon within [max_icon_size]: when
    it fits before a call it fits after it. *)
Theorem icon_methods_keep_icon_fitted s :
  (0 < max_icon_size (self s))%Z →
  (∀ image m, (0 < m)%Z →
              (QImage_width (QImage_scaled image m m) ≤ m)%Z ∧
              (QImage_height (QImage_scaled image m m) ≤ m)%Z) →
  icon_fits s →
  icon_fits (maybe_get_icon s).2 ∧ icon_fits (get_favicon s).2.
Proof.
  intros Hpos Hscaled Hfits. split.
  - eapply icon_fits_run; [done | done | apply maybe_get_icon_summary | done].
  - eapply icon_fits_run; [done | done | apply get_favicon_summary | done].
Qed.

End run_properties.

(** ** Particular runs of [maybe_get_icon] *)

Section icon_paths.
Context `{Runtime}.
Implicit Types (s : Store).


(** X7.  An icon link that [urlsplit] cannot split (an unbalanced
    bracket in its network location, for one) is not turned into 'no
    icon': the [ValueError] is raised to the caller after the page
    request, and the downloader is left as it was. *)
Theorem malformed_icon_link_raises s page_response href e :
  site_icon (self s) = None → with_pyqt = true →
  Request_error (icon_url (self s)) = None →
  urlopen_outcome (requests (world s))
    (agent_request (user_agent (self s)) (icon_url (self s)))
  = Return page_response →
  code page_response = 200%Z →
  getitem (find (soup (body page_response)) "link" "icon") "href"
  = Return href →
  urllib_parse.urlsplit href "" = Raise e →
  maybe_get_icon s =
  (Raise e, sent (agent_request (user_agent (self s)) (icon_url (self s))) s).
Proof.
  intros Hicon Hqt Hreq Hpage Hcode Hlink Hsplit.
  eapply maybe_get_icon_link_invalid; try done.
  unfold resolve_icon_url. by rewrite Hsplit.
Qed.

(** X8.  A URL that [Request] rejects ends the call before anything is
    sent: [maybe_get_icon] raises the error of [Request] for [icon_url]
    (the empty default among them), [get_favicon] the error for the
    favicon address, and the store is unchanged. *)
Theorem rejected_url_raises_unsent s :
  site_icon (self s) = None → with_pyqt = true →
  (∀ e, Request_error (icon_url (self s)) = Some e →
        maybe_get_icon s = (Raise e, s)) ∧
  (∀ ico_url e,
     urllib_parse.urljoin (icon_url (self s)) "/favicon.ico" = Return ico_url →
     Request_error ico_url = Some e →
     get_favicon s = (Raise e, s)).
Proof.
  intros Hicon Hqt. split.
  - intros e Hreq. by apply maybe_get_icon_page_rejected.
  - intros ico_url e Hjoin Hreq. by eapply get_favicon_rejected.
Qed.

(** X9.  With the base URL [url] left empty, a relative icon link stays
    relative: the address asked for is the quoted link itself.  When
    [Request] rejects it with an error that is not a [URLError] (the
    [ValueError] for a URL without a type), the call raises that error
    after the page request. *)
Theorem relative_link_without_base_url s page_response href split_url e :
  site_icon (self s) = None → with_pyqt = true →
  Request_error (icon_url (self s)) = None →
  urlopen_outcome (requests (world s))
    (agent_request (user_agent (self s)) (icon_url (self s)))
  = Return page_response →
  code page_response = 200%Z →
  getitem (find (soup (body page_response)) "link" "icon") "href"
  = Return href →
  urllib_parse.urlsplit href "" = Return split_url →
  urllib_parse.netloc split_url = "" →
  url (self s) = "" →
  Request_error (urllib_parse.quote href) = Some e →
  is_URLError e = false →
  resolve_icon_url (url (self s)) href = Return (urllib_parse.quote href) ∧
  maybe_get_icon s =
  (Raise e, sent (agent_request (user_agent (self s)) (icon_url (self s))) s).
Proof.
  intros Hicon Hqt Hreq Hpage Hcode Hlink Hsplit Hnetloc Hurl Hreq2 Hother.
  assert (resolve_icon_url (url (self s)) href
          = Return (urllib_parse.quote href)) as Htarget.
  { unfold resolve_icon_url. rewrite Hsplit. simpl.
    by rewrite Hnetloc, Hurl. }
  split; [done|].
  erewrite maybe_get_icon_link_rejected by done. by rewrite Hother.
Qed.

(** X10.  When the icon link of the page is answered with status 200,
    the call returns normally and stores the image decoded from the
    body: as it is when its width and height are at most
    [max_icon_size], scaled to a square of that side otherwise. *)
Theorem declared_icon_stored s page_response href target icon_response :
  site_icon (self s) = None → with_pyqt = true →
  Request_error (icon_url (self s)) = None →
  urlopen_outcome (requests (world s))
    (agent_request (user_agent (self s)) (icon_url (self s)))
  = Return page_response →
  code page_response = 200%Z →
  getitem (find (soup (body page_response)) "link" "icon") "href"
  = Return href →
  resolve_icon_url (url (self s)) href = Return target →
  Request_error target = None →
  urlopen_outcome
    (requests (world s)
     ++ [agent_request (user_agent (self s)) (icon_url (self s))])
    (agent_request (user_agent (self s)) target) = Return icon_response →
  code icon_response = 200%Z →
  let image := QImage_fromData (body icon_response) in
  let max_size := max_icon_size (self s) in
  (maybe_get_icon s).1 = Return () ∧
  site_icon (self (maybe_get_icon s).2) =
  Some (if ((max_size <? QImage_width image)
            || (max_size <? QImage_height image))%Z
        then QImage_scaled image max_size max_size
        else image).
Proof.
  intros Hicon Hqt Hreq Hpage Hcode Hlink Htarget Hreq2 Hopen Hcode2.
  erewrite maybe_get_icon_icon_stored by done. done.
Qed.

(** X11.  When [urlopen] returns the page with a status other than 200
    (a response it hands back, such as 204; the [HTTPError] it raises
    for a 404 is raised to the
    caller before any favicon is asked for), or
    with a page that has no icon link with an [href], and then returns
    the favicon with status 200, the call returns normally with the
    favicon stored, scaled down when it is larger than
    [max_icon_size]. *)
Theorem favicon_stored_on_fallback s page_response ico_url ico_response :
  site_icon (self s) = None → with_pyqt = true →
  Request_error (icon_url (self s)) = None →
  urlopen_outcome (requests (world s))
    (agent_request (user_agent (self s)) (icon_url (self s)))
  = Return page_response →
  code page_response ≠ 200%Z
  ∨ (∃ e, getitem (find (soup (body page_response)) "link" "icon") "href"
          = Raise e) →
  urllib_parse.urljoin (icon_url (self s)) "/favicon.ico" = Return ico_url →
  Request_error ico_url = None →
  urlopen_outcome
    (requests (world s)
     ++ [agent_request (user_agent (self s)) (icon_url (self s))])
    (agent_request (user_agent (self s)) ico_url) = Return ico_response →
  code ico_response = 200%Z →
  let image := QImage_fromData (body ico_response) in
  let max_size := max_icon_size (self s) in
  (maybe_get_icon s).1 = Return () ∧
  site_icon (self (maybe_get_icon s).2) =
  Some (if ((max_size <? QImage_width image)
            || (max_size <? QImage_height image))%Z
        then QImage_scaled image max_size max_size
        else image).
Proof.
  intros Hicon Hqt Hreq Hpage Hcase Hjoin Hreq2 Hopen Hcode2.
  destruct (favicon_fallback s page_response ico_url) as [-> _]; try done.
  erewrite (get_favicon_stored _ ico_url) by done. done.
Qed.

End icon_paths.

(** ** The raw fetch helpers *)

Section fetch_facts.
Context `{Runtime}.
Implicit Types (s : Store).

(** The run of [get_data_from_url], in full. *)
Lemma get_data_from_url_run url_in s :
  get_data_from_url url_in s =
  match Request_error url_in with
  | Some e => (Raise e, s)
  | None =>
      let request :=
        add_header "User-agent" (user_agent (self s))
          {| full_url := url_in; headers := ∅ |} in
      (match urlopen_outcome (requests (world s)) request with
       | Return response =>
           if negb (code response =? 200)%Z
           then Raise (ValueError (str_int (code response) +:+ ": "
                                   +:+ msg response))
           else Return (body response)
       | Raise e => Raise e
       end, sent request s)
  end.
Proof.
  unfold get_data_from_url. erewrite bind_Return by done. cbv beta.
  destruct (Request_error url_in) as [e|] eqn:Hreq.
  - erewrite bind_Raise; [done|]. by apply new_Request_error.
  - erewrite bind_Return by (by apply new_Request_ok). cbv beta zeta.
    destruct (urlopen_outcome _ _) as [response|e] eqn:Hopen.
    + erewrite bind_Return by (by apply urlopen_Return). cbv beta.
      by destruct (negb _).
    + erewrite bind_Raise; [done|]. by apply urlopen_Raise.
Qed.

Lemma get_soup_from_url_run url_in s :
  get_soup_from_url url_in s =
  (match (get_data_from_url url_in s).1 with
   | Return data => Return (soup data)
   | Raise e => Raise e
   end, (get_data_from_url url_in s).2).
Proof.
  unfold get_soup_from_url, mbind, M_bind.
  by destruct (get_data_from_url url_in s) as [[data|e] s'].
Qed.

(** X12.  [get_soup_from_url] sends the same single request as
    [get_data_from_url] and ends in the same store.  A response with
    status 200 gives the parse tree of its body; any other status gives
    the [ValueError] with the status code and the reason phrase; an
    exception of [urlopen] is raised as it is; and when [Request]
    rejects the URL, its error is raised with nothing sent. *)
Theorem get_soup_from_url_outcome url_in s :
  let request :=
    add_header "User-agent" (user_agent (self s))
      {| full_url := url_in; headers := ∅ |} in
  (∀ e, Request_error url_in = Some e →
        get_soup_from_url url_in s = (Raise e, s)) ∧
  (Request_error url_in = None →
   (∀ e, urlopen_outcome (requests (world s)) request = Raise e →
         get_soup_from_url url_in s = (Raise e, sent request s)) ∧
   (∀ response,
      urlopen_outcome (requests (world s)) request = Return response →
      (code response = 200%Z →
       get_soup_from_url url_in s =
       (Return (soup (body response)), sent request s)) ∧
      (code response ≠ 200%Z →
       get_soup_from_url url_in s =
       (Raise (ValueError (str_int (code response) +:+ ": "
                           +:+ msg response)), sent request s)))).
Proof.
  intros request. rewrite get_soup_from_url_run, get_data_from_url_run.
  split.
  - by intros e ->.
  - intros ->. cbv zeta. fold request. split.
    + by intros e ->.
    + intros response ->. split.
      * by intros ->.
      * intros Hcode. apply Z.eqb_neq in Hcode. by rewrite Hcode.
Qed.

(** X13.  The raw fetch helpers never change the downloader, show no
    message, create no file and draw no temporary name.  They send one
    request, with the [User-agent] header set to the agent of the
    downloader even when the agent is the empty string, unless [Request]
    rejects the URL, in which case the store is unchanged. *)
Theorem raw_fetch_frame url_in s :
  let request :=
    add_header "User-agent" (user_agent (self s))
      {| full_url := url_in; headers := ∅ |} in
  let s' := (get_data_from_url url_in s).2 in
  (get_soup_from_url url_in s).2 = s' ∧
  self s' = self s ∧
  messages (world s') = messages (world s) ∧
  files (world s') = files (world s) ∧
  names_drawn (world s') = names_drawn (world s) ∧
  headers request !! "User-agent" = Some (user_agent (self s)) ∧
  requests (world s') =
  requests (world s)
  ++ (if Request_error url_in is Some _ then [] else [request]).
Proof.
  intros request s'. subst s'.
  rewrite get_soup_from_url_run, get_data_from_url_run.
  destruct (Request_error url_in) as [e|]; simpl.
  - rewrite app_nil_r. split_and!; first [done | apply lookup_insert_eq].
  - split_and!; first [done | apply lookup_insert_eq].
Qed.

End fetch_facts.

(** ** Names *)

Section name_facts.
Context `{Runtime}.
Implicit Types (s : Store).

(** [set_names] sets both [display_text] and [base_name] to the
    text, whatever the base and ruby arguments are; it returns normally
    and changes nothing else in the downloader or in the world.  A later
    call overrides an earlier one: after two calls the store is the one
    the last call alone would give. *)
Lemma set_names_outcome (text base ruby : string) s :
  let s1 := (set_names text base ruby s).2 in
  (set_names text base ruby s).1 = Return () ∧
  display_text (self s1) = text ∧
  base_name (self s1) = text ∧
  world s1 = world s ∧
  language (self s1) = language (self s) ∧
  downloads_list (self s1) = downloads_list (self s) ∧
  file_extension (self s1) = file_extension (self s) ∧
  url (self s1) = url (self s) ∧
  icon_url (self s1) = icon_url (self s) ∧
  max_icon_size (self s1) = max_icon_size (self s) ∧
  user_agent (self s1) = user_agent (self s) ∧
  use_temp_files (self s1) = use_temp_files (self s) ∧
  download_directory (self s1) = download_directory (self s) ∧
  show_skull_and_bones (self s1) = show_skull_and_bones (self s) ∧
  site_icon (self s1) = site_icon (self s) ∧
  (∀ text' base' ruby' : string,
     set_names text' base' ruby' s1 = set_names text' base' ruby' s).
Proof. intros s1. by split_and!. Qed.

(** X14.  Without temporary files, the name comes from the host: after
    [set_names text ...], [get_file_name] returns what
    [free_media_name] gives for [text] and the file extension of the
    downloader, and creates no file itself. *)
Theorem managed_name_from_text (text base ruby : string) s :
  use_temp_files (self s) = false →
  (set_names text base ruby;; get_file_name) s =
  (free_media_name text (file_extension (self s)) (files (world s)),
   (set_names text base ruby s).2).
Proof.
  intros Htemp. erewrite bind_Return by done.
  unfold get_file_name. erewrite bind_Return by done. cbv beta.
  cbn [set_names]. simpl. by rewrite Htemp.
Qed.

(** *** Temporary names *)

Lemma drawn_world k s :
  self (drawn k s) = self s ∧
  requests (world (drawn k s)) = requests (world s) ∧
  messages (world (drawn k s)) = messages (world s) ∧
  files (world (drawn k s)) = files (world s) ∧
  names_drawn (world (drawn k s)) = names_drawn (world s) + k.
Proof.
  induction k as [|k (Hself & Hreq & Hmsg & Hfiles & Hdrawn)].
  - simpl. by rewrite Nat.add_0_r.
  - change (drawn (S k) s) with (next_candidate_name (drawn k s)).2.
    remember (drawn k s) as sk. simpl.
    rewrite Hself, Hreq, Hmsg, Hfiles, Hdrawn.
    split_and!; first [done | lia].
Qed.

Lemma drawn_next k s : drawn k (next_candidate_name s).2 = drawn (S k) s.
Proof. unfold drawn. by rewrite Nat.iter_succ_r. Qed.

(** Taken names are skipped, one draw each. *)
Lemma _mkstemp_inner_skip k m suf s :
  (∀ j, j < k → candidate_path suf (world s) j ∈ files (world s)) →
  _mkstemp_inner (k + m) tempdir "tmp" suf s =
  _mkstemp_inner m tempdir "tmp" suf (drawn k s).
Proof.
  revert s. induction k as [|k IH]; intros s Htaken; [done|].
  change (S k + m) with (S (k + m)).
  rewrite _mkstemp_inner_taken.
  - rewrite IH; [by rewrite drawn_next|].
    intros j Hj. specialize (Htaken (S j) ltac:(lia)).
    unfold candidate_path in *. simpl.
    by replace (S (names_drawn (world s) + j))
      with (names_drawn (world s) + S j) by lia.
  - specialize (Htaken 0 ltac:(lia)). unfold candidate_path in Htaken.
    by rewrite Nat.add_0_r in Htaken.
Qed.

(** X15.  With temporary files, [get_file_name] returns the first
    candidate that does not exist: when the next [k] candidate names
    are taken and the one after them is free (and [k] is below
    [TMP_MAX]), the call returns that path twice, creates the file, and
    has drawn [k + 1] names; the downloader, the requests and the
    messages are as before. *)
Theorem get_file_name_first_free s k :
  use_temp_files (self s) = true →
  k < TMP_MAX →
  (∀ j, j < k →
        candidate_path (file_extension (self s)) (world s) j
        ∈ files (world s)) →
  candidate_path (file_extension (self s)) (world s) k ∉ files (world s) →
  ∃ s',
    get_file_name s =
    (Return (candidate_path (file_extension (self s)) (world s) k,
             candidate_path (file_extension (self s)) (world s) k), s') ∧
    files (world s') =
    {[candidate_path (file_extension (self s)) (world s) k]}
    ∪ files (world s) ∧
    names_drawn (world s') = names_drawn (world s) + S k ∧
    self s' = self s ∧
    requests (world s') = requests (world s) ∧
    messages (world s') = messages (world s).
Proof.
  intros Htemp Hk Htaken Hfree.
  destruct (drawn_world k s) as (Hself & Hreq & Hmsg & Hfiles & Hdrawn).
  assert (os_path_join tempdir
            ("tmp" +:+ candidate_name (names_drawn (world (drawn k s)))
             +:+ file_extension (self s))
          = candidate_path (file_extension (self s)) (world s) k) as Hpath.
  { unfold candidate_path. by rewrite Hdrawn. }
  eexists. split.
  - unfold get_file_name. erewrite bind_Return by done. cbv beta.
    rewrite Htemp. unfold NamedTemporaryFile.
    replace TMP_MAX with (k + S (TMP_MAX - S k)) by lia.
    erewrite bind_Return; [done|].
    rewrite _mkstemp_inner_skip by done.
    rewrite _mkstemp_inner_free by (by rewrite Hpath, Hfiles).
    by rewrite Hpath.
  - unfold os_open_excl. simpl.
    rewrite decide_False by (by rewrite Hfiles). simpl.
    rewrite Hfiles, Hdrawn, Hself, Hreq, Hmsg.
    split_and!; first [done | lia].
Qed.

(** X16.  With temporary files, when each of the next [TMP_MAX]
    candidate names is taken, [get_file_name] raises the
    [FileExistsError] of [tempfile]; no file is created, [TMP_MAX] names
    have been drawn, and the downloader is as before. *)
Theorem get_file_name_exhausted s :
  use_temp_files (self s) = true →
  (∀ j, j < TMP_MAX →
        candidate_path (file_extension (self s)) (world s) j
        ∈ files (world s)) →
  ∃ s',
    get_file_name s =
    (Raise (FileExistsError "No usable temporary file name found"), s') ∧
    files (world s') = files (world s) ∧
    names_drawn (world s') = names_drawn (world s) + TMP_MAX ∧
    self s' = self s.
Proof.
  intros Htemp Htaken.
  destruct (drawn_world TMP_MAX s) as (Hself & _ & _ & Hfiles & Hdrawn).
  exists (drawn TMP_MAX s). split; [|done].
  unfold get_file_name. erewrite bind_Return by done. cbv beta.
  rewrite Htemp. unfold NamedTemporaryFile.
  erewrite bind_Raise; [done|].
  replace TMP_MAX with (TMP_MAX + 0) at 1 by lia.
  by rewrite _mkstemp_inner_skip.
Qed.

Lemma file_frame_refl s : file_frame s s.
Proof. by repeat split. Qed.

Lemma file_frame_trans s1 s2 s3 :
  file_frame s1 s2 → file_frame s2 s3 → file_frame s1 s3.
Proof.
  intros (Hself & Hreq & Hmsg & Hfiles & Hdrawn)
         (Hself' & Hreq' & Hmsg' & Hfiles' & Hdrawn').
  split_and!; [congruence.. | by etrans | lia].
Qed.

Lemma _mkstemp_inner_frame n dir pre suf s :
  file_frame s (_mkstemp_inner n dir pre suf s).2.
Proof.
  revert s. induction n as [|n IH]; intros s; [apply file_frame_refl|].
  destruct (decide (os_path_join dir
      (pre +:+ candidate_name (names_drawn (world s)) +:+ suf)
      ∈ files (world s))) as [Hin|Hout].
  - rewrite _mkstemp_inner_taken by done.
    eapply file_frame_trans; [|apply IH].
    split_and!; first [done | simpl; lia].
  - rewrite _mkstemp_inner_free by done.
    unfold os_open_excl. simpl. rewrite decide_False by done.
    unfold file_frame. simpl. split_and!; [done.. | | lia].
    apply union_subseteq_r.
Qed.

(** X17.  In either mode and however it ends, [get_file_name] leaves the
    downloader, the requests and the messages as they were; no file
    that existed is removed and the count of drawn names does not go
    down. *)
Theorem get_file_name_frame s : file_frame s (get_file_name s).2.
Proof.
  unfold get_file_name, mbind, M_bind, get_self.
  destruct (use_temp_files (self s)).
  - unfold NamedTemporaryFile.
    pose proof (_mkstemp_inner_frame TMP_MAX tempdir "tmp"
                  (file_extension (self s)) s) as Hframe.
    by destruct (_mkstemp_inner _ _ _ _ s) as [[p|e] s'].
  - apply file_frame_refl.
Qed.

(** X18.  With temporary files, any number of calls in a row that all
    return give pairwise different paths, none of which existed before
    the first call; afterwards the files are the earlier ones and the
    returned paths, and the downloader is as before. *)
Theorem get_file_names_distinct n s names s' :
  use_temp_files (self s) = true →
  get_file_names n s = (Return names, s') →
  length names = n ∧
  NoDup names ∧
  (∀ p, p ∈ names → p ∉ files (world s)) ∧
  files (world s') = list_to_set names ∪ files (world s) ∧
  self s' = self s.
Proof.
  revert s names. induction n as [|n IH]; intros s names Htemp.
  - intros [= <- <-]. simpl. split_and!; try done.
    + constructor.
    + intros p Hp. by apply elem_of_nil in Hp.
    + by rewrite (left_id_L ∅ (∪)).
  - simpl. unfold mbind at 1, M_bind at 1.
    destruct (get_file_name s) as [[[p q]|e] s1] eqn:Hfirst; [|done].
    unfold mbind at 1, M_bind at 1.
    destruct (get_file_names n s1) as [[rest|e] s2] eqn:Hrest; [|done].
    intros [= <- <-]. simpl.
    apply get_file_name_temp_Return in Hfirst
      as (_ & _ & Hnew & Hfiles & Hself & _); [|done].
    apply IH in Hrest as (Hlen & Hdup & Hfresh & Hfiles' & Hself');
      [|by rewrite Hself].
    split_and!.
    + by rewrite Hlen.
    + constructor; [|done]. intros Hp. apply (Hfresh p Hp).
      rewrite Hfiles. apply elem_of_union. left. by apply elem_of_singleton.
    + intros p' [->|Hp']%elem_of_cons; [done|].
      intros Hin. apply (Hfresh p' Hp'). rewrite Hfiles.
      apply elem_of_union. by right.
    + rewrite Hfiles', Hfiles. apply set_eq. intros x.
      rewrite !elem_of_union. tauto.
    + congruence.
Qed.


End name_facts.

(** ** More on the deduplication helper *)

Section uniqify_more.
Context {A : Type} `{EqDecision A}.
Implicit Types (l : list A) (x : A).

Lemma filter_none (P : A → Prop) `{∀ x, Decision (P x)} l :
  (∀ x, x ∈ l → ¬ P x) → filter P l = [].
Proof.
  induction l as [|y l IH]; intros Hnone; [done|].
  rewrite filter_cons, decide_False by (apply Hnone; by left).
  apply IH. intros x Hx. apply Hnone. by right.
Qed.

(** X19.  [uniqify_list] works from left to right: the result for
    [l1 ++ l2] is the result for [l1] followed by the result for [l2]
    without the elements of [l1].  So the result for a prefix is a prefix
    of the result, and appending elements that already occur changes
    nothing. *)
Theorem uniqify_list_app l1 l2 :
  uniqify_list (l1 ++ l2) =
  uniqify_list l1 ++ filter (λ x, x ∉ l1) (uniqify_list l2) ∧
  uniqify_list l1 `prefix_of` uniqify_list (l1 ++ l2) ∧
  ((∀ x, x ∈ l2 → x ∈ l1) → uniqify_list (l1 ++ l2) = uniqify_list l1).
Proof.
  assert (uniqify_list (l1 ++ l2) =
          uniqify_list l1 ++ filter (λ x, x ∉ l1) (uniqify_list l2)) as Happ.
  { induction l2 as [|x l2 IH] using rev_ind.
    - by rewrite !app_nil_r.
    - rewrite app_assoc, !uniqify_list_snoc_decide, IH.
      destruct (decide (x ∈ l2)) as [Hin2|Hout2].
      + rewrite decide_True; [done|]. apply elem_of_app. by right.
      + rewrite filter_app, filter_cons, filter_nil.
        destruct (decide (x ∈ l1)) as [Hin1|Hout1].
        * rewrite decide_True by (apply elem_of_app; by left).
          rewrite decide_False by (by intros ?). by rewrite app_nil_r.
        * rewrite decide_False by (rewrite elem_of_app; tauto).
          rewrite decide_True by done. by rewrite app_assoc. }
  split_and!.
  - done.
  - rewrite Happ. by eexists.
  - intros Hsub. rewrite Happ.
    rewrite filter_none; [by rewrite app_nil_r|].
    intros x Hx Hout. apply Hout, Hsub. by apply uniqify_list_elem_of.
Qed.

Lemma sublist_same_length l1 l2 :
  l1 `sublist_of` l2 → (length l2 ≤ length l1)%nat → l1 = l2.
Proof.
  induction 1 as [|x l1 l2 Hsub IH|x l1 l2 Hsub IH]; simpl; intros Hlen.
  - done.
  - f_equal. apply IH. lia.
  - apply sublist_length in Hsub. lia.
Qed.

(** X20.  The result is never longer than the input.  It is the input
    itself exactly when the input has no repeated element, and exactly
    when it is as long as the input. *)
Theorem uniqify_list_unchanged_iff l :
  (length (uniqify_list l) ≤ length l)%nat ∧
  (uniqify_list l = l ↔ NoDup l) ∧
  (length (uniqify_list l) = length l ↔ NoDup l).
Proof.
  pose proof (uniqify_list_sublist l) as Hsub.
  split_and!.
  - by apply sublist_length.
  - split.
    + intros <-. apply uniqify_list_NoDup.
    + apply uniqify_list_NoDup_id.
  - split.
    + intros Hlen. rewrite <- (sublist_same_length _ _ Hsub) by lia.
      apply uniqify_list_NoDup.
    + intros Hdup. by rewrite uniqify_list_NoDup_id.
Qed.

(** X21.  Only the order of the result depends on the order of the
    input: two lists with the same elements give results that are
    permutations of each other, so equally long. *)
Theorem uniqify_list_same_elements l1 l2 :
  (∀ x, x ∈ l1 ↔ x ∈ l2) →
  uniqify_list l1 ≡ₚ uniqify_list l2 ∧
  length (uniqify_list l1) = length (uniqify_list l2).
Proof.
  intros Hsame.
  assert (uniqify_list l1 ≡ₚ uniqify_list l2) as Hperm.
  { apply NoDup_Permutation; [apply uniqify_list_NoDup..|].
    intros x. by rewrite !uniqify_list_elem_of. }
  split; [done | by rewrite Hperm].
Qed.

End uniqify_more.

Section uniqify_map.
Context {A B : Type} `{EqDecision A} `{EqDecision B}.

(** X22.  Renaming the elements by a one-to-one function commutes with
    [uniqify_list]. *)
Theorem uniqify_list_fmap (f : A → B) (l : list A) :
  Inj (=) (=) f →
  uniqify_list (f <$> l) = f <$> uniqify_list l.
Proof.
  intros Hinj. induction l as [|x l IH] using rev_ind; [done|].
  rewrite fmap_app. simpl. rewrite !uniqify_list_snoc_decide, IH.
  destruct (decide (x ∈ l)) as [Hin|Hout].
  - rewrite decide_True; [done|]. by apply list_elem_of_fmap_2.
  - rewrite decide_False; [by rewrite fmap_app|].
    intros (y & Heq & Hy)%list_elem_of_fmap. apply Hinj in Heq. by subst.
Qed.

End uniqify_map.

Section uniqify_count.
Context {A : Type} `{Countable A}.

(** X23.  The length of the result is the number of distinct elements
    of the input. *)
Theorem uniqify_list_length (l : list A) :
  length (uniqify_list l) = size (list_to_set l : gset A).
Proof.
  rewrite <- (size_list_to_set (C := gset A) (uniqify_list l))
    by apply uniqify_list_NoDup.
  f_equal. apply set_eq. intros x.
  by rewrite !elem_of_list_to_set, uniqify_list_elem_of.
Qed.

End uniqify_count.

(** ** The further properties on the concrete runtime *)

Section more_runs.
Import Demo Cases.

Lemma icon_methods_raise_unchanged_witness :
  let R := Demo.runtime true site_down in
  let s := start R false in
  (maybe_get_icon s).1 = Raise (URLError "[Errno -2] Name or service not known") ∧
  self (maybe_get_icon s).2 = self s ∧
  (get_favicon s).1 = Raise (URLError "[Errno -2] Name or service not known") ∧
  self (get_favicon s).2 = self s.
Proof.
  intros R s.
  destruct (@icon_methods_raise_unchanged R s
              (URLError "[Errno -2] Name or service not known"))
    as [Hicon Hfav].
  split_and!; [reflexivity | by apply Hicon | reflexivity | by apply Hfav].
Defined.

(** Scaling with the proportions kept stays within a square of
    positive side. *)
Lemma keep_ratio_scaled_fits image m :
  (0 < m)%Z →
  (img_width (Fixtures.keep_ratio_scaled image m m) ≤ m)%Z ∧
  (img_height (Fixtures.keep_ratio_scaled image m m) ≤ m)%Z.
Proof.
  intros Hm. unfold Fixtures.keep_ratio_scaled. cbv zeta.
  destruct (_ || _)%Z eqn:Hempty; [simpl; lia|].
  repeat (apply orb_false_iff in Hempty as [Hempty ?]).
  assert (0 < img_width image)%Z as Hw by lia.
  assert (0 < img_height image)%Z as Hh by lia.
  destruct (_ <=? _)%Z eqn:Hrw; simpl.
  - apply Z.leb_le in Hrw. lia.
  - apply Z.leb_gt in Hrw.
    assert (img_height image ≤ img_width image)%Z as Hwide.
    { destruct (decide (img_height image ≤ img_width image)%Z); [done|].
      assert ((m * img_width image) / img_height image ≤ m)%Z; [|lia].
      apply Z.div_le_upper_bound; nia. }
    assert ((m * img_height image) / img_width image ≤ m)%Z.
    { apply Z.div_le_upper_bound; nia. }
    lia.
Qed.

Lemma icon_methods_keep_icon_fitted_witness :
  let R := Fixtures.runtime true site_absolute in
  let s := start R false in
  QImage_fromData big_icon_data =
  {| img_data := big_icon_data; img_width := 60; img_height := 30 |} ∧
  site_icon (self (maybe_get_icon s).2) =
  Some {| img_data := big_icon_data; img_width := 20; img_height := 10 |} ∧
  icon_fits (maybe_get_icon s).2 ∧ icon_fits (get_favicon s).2.
Proof.
  intros R s. split; [reflexivity|]. split; [reflexivity|].
  apply (@icon_methods_keep_icon_fitted R s).
  - reflexivity.
  - apply keep_ratio_scaled_fits.
  - exact I.
Defined.


Lemma malformed_icon_link_raises_witness :
  let R := Cases.runtime true site_malformed 10 in
  let s := start R false in
  maybe_get_icon s =
  (Raise (ValueError "Invalid IPv6 URL"), sent page_request s) ∧
  site_icon (self (maybe_get_icon s).2) = None.
Proof.
  intros R s.
  assert (maybe_get_icon s =
          (Raise (ValueError "Invalid IPv6 URL"), sent page_request s))
    as Hrun.
  { apply (@malformed_icon_link_raises R s
             {| code := 200; msg := "OK"; body := page_with_malformed_icon |}
             "//[::1/icon.png"); reflexivity. }
  split; [exact Hrun | by rewrite Hrun].
Defined.

Lemma rejected_url_raises_unsent_witness :
  let R := Demo.runtime true site_ok in
  let s := {| self := @__init__ R; world := empty_world |} in
  maybe_get_icon s = (Raise (ValueError "unknown url type: ''"), s) ∧
  get_favicon s = (Raise (ValueError "unknown url type: '/favicon.ico'"), s).
Proof.
  intros R s.
  destruct (@rejected_url_raises_unsent R s eq_refl eq_refl) as [Hicon Hfav].
  split.
  - by apply Hicon.
  - by apply (Hfav "/favicon.ico").
Defined.

Lemma relative_link_without_base_url_witness :
  let R := Demo.runtime true site_ok in
  let s := start_without_url R in
  resolve_icon_url (url (self s)) "/icons/a.png" = Return "/icons/a.png" ∧
  maybe_get_icon s =
  (Raise (ValueError "unknown url type: '/icons/a.png'"),
   sent page_request s).
Proof.
  intros R s.
  apply (@relative_link_without_base_url R s
           {| code := 200; msg := "OK"; body := page_with_icon |}
           "/icons/a.png"
           {| urllib_parse.scheme := ""; urllib_parse.netloc := "";
              urllib_parse.path := "/icons/a.png"; urllib_parse.query := "";
              urllib_parse.fragment := "" |}
           (ValueError "unknown url type: '/icons/a.png'")); reflexivity.
Defined.

Lemma declared_icon_stored_witness :
  (let R := Demo.runtime true site_ok in
   let s := start R false in
   (maybe_get_icon s).1 = Return () ∧
   site_icon (self (maybe_get_icon s).2) = Some (fromData icon_data)) ∧
  (let R := Cases.runtime true site_absolute 10 in
   let s := start R false in
   (maybe_get_icon s).1 = Return () ∧
   site_icon (self (maybe_get_icon s).2) =
   Some (scaled (fromData big_icon_data) 20 20)).
Proof.
  split.
  - intros R s.
    apply (@declared_icon_stored R s
             {| code := 200; msg := "OK"; body := page_with_icon |}
             "/icons/a.png" icon_link_url
             {| code := 200; msg := "OK"; body := icon_data |});
      reflexivity.
  - intros R s.
    apply (@declared_icon_stored R s
             {| code := 200; msg := "OK"; body := page_with_absolute_icon |}
             cdn_icon_url cdn_icon_url
             {| code := 200; msg := "OK"; body := big_icon_data |});
      reflexivity.
Defined.

Lemma favicon_stored_on_fallback_witness :
  (let R := Fixtures.runtime true Fixtures.site_page_empty_big_favicon in
   let s := start R false in
   (maybe_get_icon s).1 = Return () ∧
   site_icon (self (maybe_get_icon s).2) =
   Some {| img_data := big_icon_data; img_width := 20; img_height := 10 |}) ∧
  (let R := Fixtures.runtime true Fixtures.site_no_link_big_favicon in
   let s := start R false in
   (maybe_get_icon s).1 = Return () ∧
   site_icon (self (maybe_get_icon s).2) =
   Some {| img_data := big_icon_data; img_width := 20; img_height := 10 |}).
Proof.
  split.
  - intros R s.
    apply (@favicon_stored_on_fallback R s
             {| code := 204; msg := "No Content"; body := [] |}
             favicon_url
             {| code := 200; msg := "OK"; body := big_icon_data |});
      first [reflexivity | by left].
  - intros R s.
    apply (@favicon_stored_on_fallback R s
             {| code := 200; msg := "OK"; body := page_without_icon |}
             favicon_url
             {| code := 200; msg := "OK"; body := big_icon_data |});
      first [reflexivity
            | right;
              by exists (TypeError "'NoneType' object is not subscriptable")].
Defined.

Lemma get_soup_from_url_outcome_witness :
  let R := Demo.runtime true site_icon_missing in
  let s := start R false in
  get_soup_from_url page_url s =
  (Return (Demo.parse page_with_icon), sent page_request s) ∧
  get_soup_from_url icon_link_url s =
  (Raise (ValueError "404: Not Found"), sent icon_request s) ∧
  get_soup_from_url "page" s =
  (Raise (ValueError "unknown url type: 'page'"), s).
Proof.
  intros R s. split_and!.
  - destruct (@get_soup_from_url_outcome R page_url s) as [_ Haccepted].
    destruct (Haccepted eq_refl) as [_ Hanswer].
    destruct (Hanswer {| code := 200; msg := "OK"; body := page_with_icon |}
                eq_refl) as [Hok _].
    by apply Hok.
  - destruct (@get_soup_from_url_outcome R icon_link_url s) as [_ Haccepted].
    destruct (Haccepted eq_refl) as [_ Hanswer].
    destruct (Hanswer {| code := 404; msg := "Not Found"; body := [] |}
                eq_refl) as [_ Hbad].
    by apply Hbad.
  - destruct (@get_soup_from_url_outcome R "page" s) as [Hrejected _].
    by apply Hrejected.
Defined.

Lemma managed_name_from_text_witness :
  let R := Demo.runtime true site_ok in
  let s := start R false in
  (set_names "hello" "" "";; get_file_name) s =
  (Return ("hello.wav", "hello.wav"), (set_names "hello" "" "" s).2).
Proof.
  intros R s. apply (@managed_name_from_text R "hello" "" "" s). reflexivity.
Defined.

Lemma get_file_name_first_free_witness :
  let R := Cases.runtime true site_ok 10 in
  let s := crowded R in
  ∃ s',
    get_file_name s = (Return ("/tmp/tmpname1.wav", "/tmp/tmpname1.wav"), s') ∧
    files (world s') = {["/tmp/tmpname1.wav"]} ∪ files (world s) ∧
    names_drawn (world s') = 3 ∧
    self s' = self s ∧
    requests (world s') = requests (world s) ∧
    messages (world s') = messages (world s).
Proof.
  intros R s. apply (@get_file_name_first_free R s 2).
  - reflexivity.
  - simpl. lia.
  - intros j Hj. destruct j as [|[|j]]; [| |lia].
    + vm_compute. reflexivity.
    + vm_compute. reflexivity.
  - intros Hin. vm_compute in Hin. discriminate.
Defined.

Lemma get_file_name_exhausted_witness :
  let R := Cases.runtime true site_ok 2 in
  let s := crowded R in
  ∃ s',
    get_file_name s =
    (Raise (FileExistsError "No usable temporary file name found"), s') ∧
    files (world s') = files (world s) ∧
    names_drawn (world s') = 2 ∧
    self s' = self s.
Proof.
  intros R s. apply (@get_file_name_exhausted R s).
  - reflexivity.
  - intros j Hj. destruct j as [|[|j]]; [| |simpl in Hj; lia].
    + vm_compute. reflexivity.
    + vm_compute. reflexivity.
Defined.

Lemma get_file_names_distinct_witness :
  let R := Demo.runtime true site_ok in
  let s := start R true in
  let names := ["/tmp/tmpname0.wav"; "/tmp/tmpname1.wav"; "/tmp/tmpname2.wav"] in
  (get_file_names 3 s).1 = Return names ∧
  NoDup names ∧
  files (world (get_file_names 3 s).2) = list_to_set names ∪ files (world s).
Proof.
  intros R s names.
  assert (get_file_names 3 s = (Return names, (get_file_names 3 s).2))
    as Hrun by (vm_compute; reflexivity).
  destruct (@get_file_names_distinct R 3 s names _ eq_refl Hrun)
    as (_ & Hdup & _ & Hfiles & _).
  split_and!; [by rewrite Hrun | exact Hdup | exact Hfiles].
Defined.

Lemma uniqify_list_app_witness :
  uniqify_list ([1; 2; 1] ++ [2; 3; 1; 3]) =
  uniqify_list [1; 2; 1]
  ++ filter (λ x, x ∉ [1; 2; 1]) (uniqify_list [2; 3; 1; 3]) ∧
  uniqify_list ([1; 2; 1] ++ [2; 1]) = uniqify_list [1; 2; 1].
Proof.
  split.
  - apply (proj1 (uniqify_list_app [1; 2; 1] [2; 3; 1; 3])).
  - apply (proj2 (proj2 (uniqify_list_app [1; 2; 1] [2; 1]))).
    intros x Hx. apply list_elem_of_In. apply list_elem_of_In in Hx.
    simpl in *. tauto.
Defined.

Lemma uniqify_list_same_elements_witness :
  uniqify_list [1; 2; 1] ≡ₚ uniqify_list [2; 1; 2; 2] ∧
  length (uniqify_list [1; 2; 1]) = length (uniqify_list [2; 1; 2; 2]).
Proof.
  apply (uniqify_list_same_elements [1; 2; 1] [2; 1; 2; 2]).
  intros x. rewrite !list_elem_of_In. simpl. tauto.
Defined.

Lemma uniqify_list_fmap_witness :
  uniqify_list (S <$> [1; 1; 2]) = S <$> uniqify_list [1; 1; 2].
Proof.
  apply (uniqify_list_fmap S [1; 1; 2]). intros x y Heq. lia.
Defined.

End more_runs.
